(** * Template-based slide synthesis ([core/generator.py])

    A shallow embedding of the slide generator: the exemplar search
    ([find_best_content_slide]), the replication of the exemplar's visual
    shapes ([copy_template_visual_elements] and the functions below it), the
    population of placeholders ([populate_slide_content]), the plain builder
    ([create_basic_presentation]) and the entry point
    ([create_ppt_from_template]).

    The object model of the slide-deck library is the boundary of the
    development. It is represented by the data types of the first section:
    a deck is a list of slides and a list of layouts, a slide is a list of
    shapes, and every attribute the generator reads is a function on these
    types. Attributes whose access can fail return a [Res]. *)

From Stdlib Require Import ZArith Lia.
From stdpp Require Import base option list strings gmap.

Open Scope string_scope.
Open Scope list_scope.
Open Scope nat_scope.

(** ** Exceptions and mutable state *)

Inductive Exn :=
| IndexError | AttributeError | ValueError | NotImplementedError
| PackageNotFoundError | OSError.

Inductive Res (A : Type) :=
| Ok (a : A)
| Raise (e : Exn).
Arguments Ok {A} a.
Arguments Raise {A} e.

(** A computation over a mutable object of type [S]. What was mutated before
    an exception was raised stays mutated: the state is returned in both
    cases. *)
Definition M (S A : Type) : Type := S -> Res A * S.

Definition ret {S A} (a : A) : M S A := fun s => (Ok a, s).
Definition raise {S A} (e : Exn) : M S A := fun s => (Raise e, s).
Definition bind {S A B} (m : M S A) (k : A -> M S B) : M S B :=
  fun s => match m s with
           | (Ok a, s') => k a s'
           | (Raise e, s') => (Raise e, s')
           end.
Definition try_except {S A} (body : M S A) (handler : Exn -> M S A) : M S A :=
  fun s => match body s with
           | (Ok a, s') => (Ok a, s')
           | (Raise e, s') => handler e s'
           end.
Definition get {S} : M S S := fun s => (Ok s, s).
Definition modify {S} (f : S -> S) : M S unit := fun s => (Ok tt, f s).
Definition lift_res {S A} (r : Res A) : M S A := fun s => (r, s).

Declare Scope py_scope.
Delimit Scope py_scope with py.
Notation "'let!' x ':=' m 'in' k" := (bind m (fun x => k))
  (at level 10, x name, m at level 99, k at level 200) : py_scope.
Notation "m ';;' k" := (bind m (fun _ => k))
  (at level 100, k at level 200) : py_scope.
Open Scope py_scope.

(** [for x in xs: body x] *)
Fixpoint for_each {S A} (xs : list A) (body : A -> M S unit) : M S unit :=
  match xs with
  | [] => ret tt
  | x :: xs' => body x ;; for_each xs' body
  end.

(** A computation on a local object [s0] that is not part of the ambient
    state: an exception propagates, the local object is returned otherwise. *)
Definition run_local {S S' A} (m : M S' A) (s0 : S') : M S (A * S') :=
  fun s => match m s0 with
           | (Ok a, s') => (Ok (a, s'), s)
           | (Raise e, _) => (Raise e, s)
           end.

(** ** Object model of the slide-deck library *)

Inductive PP_PLACEHOLDER :=
| TITLE | BODY | CENTER_TITLE | SUBTITLE | OBJECT | PICTURE_PH | OTHER_PH.

Inductive MSO_SHAPE_TYPE :=
| AUTO_SHAPE | FREEFORM | GROUP | LINE | LINKED_PICTURE | PICTURE
| PLACEHOLDER | TEXT_BOX | CHART | TABLE | MEDIA.

#[global] Instance PP_PLACEHOLDER_eq_dec : EqDecision PP_PLACEHOLDER.
Proof. solve_decision. Defined.
#[global] Instance MSO_SHAPE_TYPE_eq_dec : EqDecision MSO_SHAPE_TYPE.
Proof. solve_decision. Defined.

Inductive Alignment := ALIGN_LEFT | ALIGN_CENTER | ALIGN_RIGHT | ALIGN_JUSTIFY.

Record Paragraph := mkParagraph {
  ptext : string;
  level : nat;
  alignment : option Alignment;
  font_name : option string;
  font_size : option Z
}.

(** [text_frame.paragraphs] *)
Abbreviation TextFrame := (list Paragraph).

Definition empty_paragraph : Paragraph := mkParagraph EmptyString 0 None None None.

(** What distinguishes the shape classes of the library. A placeholder has a
    text frame unless it holds a table, a chart or a picture ([None]); a
    picture has an embedded image or none ([None]: a linked picture, reading
    [image.blob] fails); a text box and an auto shape always have a text
    frame, be it empty; [Generic] stands for graphic frames, groups and
    connectors, which have no text and whose [shape_type] may be
    unimplemented. *)
Inductive ShapeKind :=
| Placeholder (ty : PP_PLACEHOLDER) (idx : nat) (tf : option TextFrame)
| Picture (image : option (list Byte.byte))
| TextBox (tf : TextFrame)
| AutoShape (tf : TextFrame)
| Generic (st : option MSO_SHAPE_TYPE).

Record Shape := mkShape {
  kind : ShapeKind;
  left : Z;
  top : Z;
  width : Z;
  height : Z;
  rotation : option Z  (* [None]: the object has no attribute [rotation] *)
}.

Record LayoutPlaceholder := mkLayoutPlaceholder {
  lph_type : PP_PLACEHOLDER;
  lph_idx : nat;
  lph_left : Z; lph_top : Z; lph_width : Z; lph_height : Z
}.

(** A layout, as far as slide creation is concerned: the placeholders a new
    slide receives from it. *)
Record Layout := mkLayout { layout_placeholders : list LayoutPlaceholder }.

Record Slide := mkSlide {
  shapes : list Shape;
  slide_layout : Layout
}.

Record Presentation := mkPresentation {
  slides : list Slide;
  slide_layouts : list Layout
}.

(** *** Shape attributes *)

Definition is_placeholder (s : Shape) : bool :=
  match kind s with Placeholder _ _ _ => true | _ => false end.

(** [shape.placeholder_format.type]; only read under [is_placeholder]. *)
Definition placeholder_type (s : Shape) : Res PP_PLACEHOLDER :=
  match kind s with Placeholder ty _ _ => Ok ty | _ => Raise ValueError end.

Definition placeholder_idx (s : Shape) : option nat :=
  match kind s with Placeholder _ i _ => Some i | _ => None end.

Definition shape_type (s : Shape) : Res MSO_SHAPE_TYPE :=
  match kind s with
  | Placeholder _ _ _ => Ok PLACEHOLDER
  | Picture _ => Ok PICTURE
  | TextBox _ => Ok TEXT_BOX
  | AutoShape _ => Ok AUTO_SHAPE
  | Generic (Some t) => Ok t
  | Generic None => Raise NotImplementedError
  end.

(** [shape.image.blob] *)
Definition image_blob (s : Shape) : Res (list Byte.byte) :=
  match kind s with
  | Picture (Some b) => Ok b
  | Picture None => Raise ValueError
  | _ => Raise AttributeError
  end.

(** [shape.text_frame]; [Some] exactly when [hasattr(shape, 'text')]. *)
Definition text_frame (s : Shape) : option TextFrame :=
  match kind s with
  | Placeholder _ _ o => o
  | TextBox tf => Some tf
  | AutoShape tf => Some tf
  | _ => None
  end.

(** The shape with [tf] as the content of its text frame. A shape without
    text frame stays as it is: an assignment to its [text] does not reach
    the document. *)
Definition set_text_frame (tf : TextFrame) (s : Shape) : Shape :=
  let k := match kind s with
           | Placeholder ty i (Some _) => Placeholder ty i (Some tf)
           | TextBox _ => TextBox tf
           | AutoShape _ => AutoShape tf
           | k => k
           end in
  mkShape k (left s) (top s) (width s) (height s) (rotation s).

Definition set_rotation (r : Z) (s : Shape) : Shape :=
  mkShape (kind s) (left s) (top s) (width s) (height s) (Some r).

(** *** Text *)

Definition newline : string := String (Ascii.ascii_of_nat 10) EmptyString.

(** [text.split("\n")] *)
Fixpoint split_lines (cur : string) (s : string) : list string :=
  match s with
  | EmptyString => [cur]
  | String c s' =>
      if Ascii.eqb c (Ascii.ascii_of_nat 10)
      then cur :: split_lines EmptyString s'
      else split_lines (cur +:+ String c EmptyString) s'
  end.

(** [text_frame.text], getter: the paragraph texts joined by line feeds. *)
Definition tf_get_text (tf : TextFrame) : string :=
  String.concat newline (map ptext tf).

(** [text_frame.text = s]: all paragraphs are replaced by one fresh paragraph
    per line of [s]. The paragraph texts are those the library stores when
    [s] holds no control character besides line feed and horizontal tab; the
    library writes any other control character as an escape of the form
    [_xHHHH_], which is not represented. *)
Definition tf_set_text (s : string) : TextFrame :=
  map (fun line => mkParagraph line 0 None None None) (split_lines EmptyString s).

(** [text_frame.clear()]: all paragraphs but the first are removed and the
    first loses its text (its paragraph properties stay). *)
Definition tf_clear (tf : TextFrame) : TextFrame :=
  match tf with
  | [] => [empty_paragraph]
  | p :: _ => [mkParagraph EmptyString (level p) (alignment p) (font_name p) (font_size p)]
  end.

(** [paragraph.text = t]. The text is the one the library stores when [t]
    holds no control character besides the horizontal tab; the library
    turns a line feed into a line break, read back as a vertical tab, and
    writes other control characters as escapes, which is not represented. *)
Definition set_ptext (t : string) (p : Paragraph) : Paragraph :=
  mkParagraph t (level p) (alignment p) (font_name p) (font_size p).

Definition set_level (n : nat) (p : Paragraph) : Paragraph :=
  mkParagraph (ptext p) n (alignment p) (font_name p) (font_size p).

(** [shape.text = s] *)
Definition set_shape_text (s : string) (sh : Shape) : Shape :=
  set_text_frame (tf_set_text s) sh.

(** *** Slides and decks *)

Definition instantiate (lp : LayoutPlaceholder) : Shape :=
  mkShape (Placeholder (lph_type lp) (lph_idx lp) (Some [empty_paragraph]))
          (lph_left lp) (lph_top lp) (lph_width lp) (lph_height lp) (Some 0%Z).

Definition new_slide_from (layout : Layout) : Slide :=
  mkSlide (map instantiate (layout_placeholders layout)) layout.

(** [prs.slides.add_slide(layout)]: the new slide is appended to the deck;
    the result is its position, which stands for the reference the caller
    holds. *)
Definition add_slide (layout : Layout) : M Presentation nat :=
  fun prs => (Ok (length (slides prs)),
              mkPresentation (slides prs ++ [new_slide_from layout]) (slide_layouts prs)).

(** [xs[i]] for a non-negative [i] *)
Definition getitem {A} (xs : list A) (i : nat) : Res A :=
  match xs !! i with Some x => Ok x | None => Raise IndexError end.

(** [del xs[i]] for a non-negative [i] *)
Definition delitem {A} (i : nat) : M (list A) unit :=
  fun xs => if decide (i < length xs) then (Ok tt, delete i xs)
            else (Raise IndexError, xs).

(** Python truthiness of a string. *)
Definition truthy (s : string) : bool :=
  match s with EmptyString => false | _ => true end.

(** ** Content items: dictionaries read with [.get] *)

Record ContentItem := mkItem {
  item_title : option string;          (* key "title", if present *)
  item_points : option (list string)   (* key "points", if present *)
}.

Definition get_title (c : ContentItem) : string := default EmptyString (item_title c).
Definition get_points (c : ContentItem) : list string := default [] (item_points c).

(** ** TemplateAnalyzer *)

(** The inner loop of [find_best_content_slide]: the state is
    [(score, has_title, has_content_area)]. *)
Definition score_step (st : nat * bool * bool) (shape : Shape) : nat * bool * bool :=
  let '(score, has_title, has_content_area) := st in
  if is_placeholder shape then
    match placeholder_type shape with
    | Ok TITLE => (score + 2, true, has_content_area)
    | Ok BODY | Ok OBJECT => (score + 3, has_title, true)
    | _ => st
    end
  else st.

Definition slide_score (slide : Slide) : nat :=
  let '(score, has_title, has_content_area) :=
    fold_left score_step (shapes slide) (0, false, false) in
  if has_title && has_content_area then score + 5 else score.

Definition best_step (st : option Slide * nat) (slide : Slide) : option Slide * nat :=
  let '(best_slide, best_score) := st in
  let score := slide_score slide in
  if decide (best_score < score) then (Some slide, score) else (best_slide, best_score).

Definition find_best_content_slide (template_prs : Presentation) : option Slide :=
  fst (fold_left best_step (slides template_prs) (None, 0)).

(** ** Environment of a run *)

Inductive File :=
| Corrupt                      (* exists, but is not a readable deck *)
| Deck (prs : Presentation).

(** What the generator takes from outside: the layouts of the library's
    built-in template ([Presentation()] is a deck with these layouts and no
    slide), the images that [add_picture] can identify, and the paths that
    [save] can write. *)
Record Env := mkEnv {
  default_layouts : list Layout;
  accepts_image : list Byte.byte -> bool;
  writable : string -> bool
}.

Abbreviation FS := (gmap string File).

(** Focus a computation on a part of the state; [e] is raised when the part
    does not exist. *)
Definition zoom {S T A} (e : Exn) (getter : S -> option T) (setter : T -> S -> S)
    (m : M T A) : M S A :=
  fun s => match getter s with
           | Some t => let '(r, t') := m t in (r, setter t' s)
           | None => (Raise e, s)
           end.

Definition set_slides (sls : list Slide) (prs : Presentation) : Presentation :=
  mkPresentation sls (slide_layouts prs).

Definition set_shapes (shs : list Shape) (sl : Slide) : Slide :=
  mkSlide shs (slide_layout sl).

(** The slide held under reference [i]. *)
Definition on_slide {A} (i : nat) (m : M Slide A) : M Presentation A :=
  zoom IndexError (fun prs => slides prs !! i)
       (fun sl prs => set_slides (<[i := sl]> (slides prs)) prs) m.

(** The shape held under reference [i]. *)
Definition on_shape {A} (i : nat) (m : M Shape A) : M Slide A :=
  zoom IndexError (fun sl => shapes sl !! i)
       (fun sh sl => set_shapes (<[i := sh]> (shapes sl)) sl) m.

(** [shape.text_frame] *)
Definition on_text_frame {A} (m : M TextFrame A) : M Shape A :=
  zoom AttributeError text_frame set_text_frame m.

(** [tf.paragraphs[i]] *)
Definition on_paragraph {A} (i : nat) (m : M Paragraph A) : M TextFrame A :=
  zoom IndexError (fun tf : TextFrame => tf !! i)
       (fun p (tf : TextFrame) => <[i := p]> tf) m.

(** [prs.slides._sldIdLst] *)
Definition on_sldIdLst {A} (m : M (list Slide) A) : M Presentation A :=
  zoom AttributeError (fun prs => Some (slides prs)) set_slides m.

(** [tf.add_paragraph()] *)
Definition add_paragraph : M TextFrame nat :=
  fun tf => (Ok (length tf), tf ++ [empty_paragraph]).

(** [slide.shapes.add_textbox(left, top, width, height)] *)
Definition add_textbox (l t w h : Z) : M Slide nat :=
  fun sl => (Ok (length (shapes sl)),
             set_shapes (shapes sl ++ [mkShape (TextBox [empty_paragraph]) l t w h (Some 0%Z)]) sl).

(** [slide.shapes.title]: the first placeholder whose index is 0. *)
Definition shapes_title (sl : Slide) : option nat :=
  fst <$> list_find (fun s => placeholder_idx s = Some 0) (shapes sl).

Section Generator.

Variable env : Env.

(** [slide.shapes.add_picture(stream, left, top, width, height)] *)
Definition add_picture (blob : list Byte.byte) (l t w h : Z) : M Slide nat :=
  fun sl => if accepts_image env blob
            then (Ok (length (shapes sl)),
                  set_shapes (shapes sl ++ [mkShape (Picture (Some blob)) l t w h (Some 0%Z)]) sl)
            else (Raise OSError, sl).

(** [Presentation(path)] *)
Definition Presentation_open (path : string) : M FS Presentation :=
  fun fs => match fs !! path with
            | Some (Deck prs) => (Ok prs, fs)
            | _ => (Raise PackageNotFoundError, fs)
            end.

(** [Presentation()] *)
Definition Presentation_new : Presentation :=
  mkPresentation [] (default_layouts env).

(** [prs.save(path)] *)
Definition save (prs : Presentation) (path : string) : M FS unit :=
  fun fs => if writable env path then (Ok tt, <[path := Deck prs]> fs)
            else (Raise OSError, fs).

(** ** ShapeReplicator

    Every handler of this part prints a diagnostic and goes on; the printed
    text is not represented, a handler is [ret tt]. *)

Definition copy_image_shape (source_shape : Shape) : M Slide unit :=
  try_except
    (let! image_data := lift_res (image_blob source_shape) in
     let! pic := add_picture image_data (left source_shape) (top source_shape)
                             (width source_shape) (height source_shape) in
     match rotation source_shape with
     | Some r => on_shape pic (modify (set_rotation r))
     | None => ret tt
     end)
    (fun _ => ret tt).

Definition copy_paragraph_formatting (src_para tgt_para : Paragraph) : Paragraph :=
  let tgt1 := mkParagraph (ptext tgt_para) (level tgt_para) (alignment src_para)
                          (font_name tgt_para) (font_size tgt_para) in
  let tgt2 := match font_name src_para with
              | Some n => if truthy n
                          then mkParagraph (ptext tgt1) (level tgt1) (alignment tgt1)
                                           (Some n) (font_size tgt1)
                          else tgt1
              | None => tgt1
              end in
  match font_size src_para with
  | Some z => if decide (z = 0%Z) then tgt2
              else mkParagraph (ptext tgt2) (level tgt2) (alignment tgt2)
                               (font_name tgt2) (Some z)
  | None => tgt2
  end.

Definition copy_text_formatting (source_tf : TextFrame) : M TextFrame unit :=
  try_except
    (let! target_tf := get in
     for_each (zip source_tf (seq 0 (length target_tf)))
       (fun pr => on_paragraph (snd pr) (modify (copy_paragraph_formatting (fst pr)))))
    (fun _ => ret tt).

(** Both text frames of line 188 are objects, hence true. *)
Definition copy_text_or_shape (source_shape : Shape) : M Slide unit :=
  try_except
    (match text_frame source_shape with
     | Some source_tf =>
         let! textbox := add_textbox (left source_shape) (top source_shape)
                                     (width source_shape) (height source_shape) in
         on_shape textbox (modify (set_shape_text (tf_get_text source_tf))) ;;
         on_shape textbox (on_text_frame (copy_text_formatting source_tf))
     | None => ret tt
     end)
    (fun _ => ret tt).

Definition copy_generic_shape (source_shape : Shape) : M Slide unit :=
  try_except (ret tt) (fun _ => ret tt).

Definition copy_shape_to_slide (source_shape : Shape) : M Slide unit :=
  try_except
    (let! st := lift_res (shape_type source_shape) in
     if decide (st = PICTURE) then copy_image_shape source_shape
     else
       let! st' := lift_res (shape_type source_shape) in
       if decide (st' = TEXT_BOX \/ st' = AUTO_SHAPE) then copy_text_or_shape source_shape
       else try_except (copy_generic_shape source_shape) (fun _ => ret tt))
    (fun _ => ret tt).

Definition copy_template_visual_elements (template_slide : Slide) : M Slide unit :=
  try_except
    (let shapes_to_copy :=
       filter (fun shape => is_placeholder shape = false) (shapes template_slide) in
     for_each shapes_to_copy copy_shape_to_slide)
    (fun _ => ret tt).

(** ** ContentPopulator *)

(** One turn of the scan of [populate_slide_content]; [i] is the position of
    [shape], the state is [(title_shape, content_shape)]. *)
Definition scan_step (st : option nat * option nat) (i : nat) (shape : Shape)
    : option nat * option nat :=
  let '(title_shape, content_shape) := st in
  if is_placeholder shape then
    match placeholder_type shape with
    | Ok TITLE => (Some i, content_shape)
    | Ok BODY | Ok OBJECT => (title_shape, Some i)
    | _ => st
    end
  else st.

Fixpoint scan_placeholders (i : nat) (shs : list Shape) (st : option nat * option nat)
    : option nat * option nat :=
  match shs with
  | [] => st
  | shape :: rest => scan_placeholders (S i) rest (scan_step st i shape)
  end.

(** The point-population rule, after [tf.clear()]. *)
Definition fill_points (points : list string) : M TextFrame unit :=
  match points with
  | [] => ret tt
  | p0 :: rest =>
      on_paragraph 0 (modify (set_ptext p0)) ;;
      for_each rest (fun point_text =>
        let! new_para := add_paragraph in
        on_paragraph new_para (modify (set_ptext point_text)) ;;
        on_paragraph new_para (modify (set_level 0)))
  end.

Definition populate_slide_content (content : ContentItem) : M Slide unit :=
  let title := get_title content in
  let points := get_points content in
  let! slide := get in
  let found := scan_placeholders 0 (shapes slide) (None, None) in
  (match fst found with
   | Some title_shape =>
       if truthy title then on_shape title_shape (modify (set_shape_text title))
       else ret tt
   | None => ret tt
   end) ;;
  match snd found with
  | Some content_shape =>
      match points with
      | [] => ret tt
      | _ :: _ =>
          on_shape content_shape
            (on_text_frame (modify tf_clear ;; fill_points points))
      end
  | None => ret tt
  end.

(** ** SlideFactory *)

Definition duplicate_slide_with_content (layout : Layout) (template_slide : option Slide)
    (content : ContentItem) : M Presentation nat :=
  let! new_slide := add_slide layout in
  (match template_slide with
   | Some ts => on_slide new_slide (copy_template_visual_elements ts)
   | None => ret tt
   end) ;;
  on_slide new_slide (populate_slide_content content) ;;
  ret new_slide.

(** ** FallbackBuilder *)

(** The loop over [slide.placeholders] with its [break]; [i] is the position
    of the head of [shs] among the slide's shapes. The placeholders are
    visited in the order of the slide's shapes. *)
Fixpoint fill_first_body (i : nat) (shs : list Shape) (content : ContentItem)
    : M Slide unit :=
  match shs with
  | [] => ret tt
  | shape :: rest =>
      if is_placeholder shape then
        match placeholder_type shape with
        | Ok BODY =>
            on_shape i (on_text_frame (modify tf_clear ;; fill_points (get_points content)))
        | Ok _ => fill_first_body (S i) rest content
        | Raise e => raise e
        end
      else fill_first_body (S i) rest content
  end.

(** Lines 276-295: what the loop body does to the slide it has just added. *)
Definition basic_fill (content : ContentItem) : M Slide unit :=
  let! sl := get in
  (match shapes_title sl with
   | Some t => on_shape t (modify (set_shape_text (get_title content)))
   | None => ret tt
   end) ;;
  let! sl' := get in
  fill_first_body 0 (shapes sl') content.

Definition basic_slide (layout : Layout) (content : ContentItem) : M Presentation unit :=
  let! slide := add_slide layout in
  on_slide slide (basic_fill content).

Definition create_basic_presentation (slide_data : list ContentItem) (output_path : string)
    : M FS string :=
  let prs := Presentation_new in
  let! layout := lift_res (if decide (1 < length (slide_layouts prs))
                           then getitem (slide_layouts prs) 1
                           else getitem (slide_layouts prs) 0) in
  let! built := run_local (for_each slide_data (basic_slide layout)) prs in
  save (snd built) output_path ;;
  ret output_path.

(** ** Orchestrator *)

(** Lines 32-36: every slide entry is deleted, highest position first. The
    relationship that [drop_rel] releases has no counterpart in the deck's
    list of slides and is not represented. *)
Definition remove_all_slides : M Presentation unit :=
  let! new_prs := get in
  let slide_indices := seq 0 (length (slides new_prs)) in
  for_each (rev slide_indices) (fun i => on_sldIdLst (delitem i)).

(** The guarded region of [create_ppt_from_template] (lines 21-48). *)
Definition template_body (slide_data : list ContentItem) (output_path template_path : string)
    : M FS string :=
  let! template_prs := Presentation_open template_path in
  let template_slide := find_best_content_slide template_prs in
  let! template_slide_layout :=
    match template_slide with
    | Some ts => ret (slide_layout ts)
    | None => lift_res (getitem (slide_layouts template_prs) 1)
    end in
  let! new_prs := Presentation_open template_path in
  let! built := run_local
    (remove_all_slides ;;
     for_each slide_data (fun slide_content =>
       duplicate_slide_with_content template_slide_layout template_slide slide_content ;;
       ret tt))
    new_prs in
  save (snd built) output_path ;;
  ret output_path.

(** [template_path] is [None] when the argument is absent. *)
Definition create_ppt_from_template (slide_data : list ContentItem) (output_path : string)
    (template_path : option string) : M FS string :=
  let! fs := get in
  match template_path with
  | Some p =>
      if truthy p && bool_decide (is_Some (fs !! p))
      then try_except (template_body slide_data output_path p)
                      (fun _ => create_basic_presentation slide_data output_path)
      else create_basic_presentation slide_data output_path
  | None => create_basic_presentation slide_data output_path
  end.

End Generator.

(** ** Vocabulary of the statements

    Predicates on shapes, the scoring and selection in the words of the
    specification, and closed forms of what the generator builds. Each
    closed form is proved below to be what the function it describes
    computes. *)

Definition is_title_ph (s : Shape) : bool :=
  match kind s with Placeholder TITLE _ _ => true | _ => false end.

Definition is_content_ph (s : Shape) : bool :=
  match kind s with
  | Placeholder BODY _ _ | Placeholder OBJECT _ _ => true
  | _ => false
  end.

Definition is_body_ph (s : Shape) : bool :=
  match kind s with Placeholder BODY _ _ => true | _ => false end.

Definition count_shapes (P : Shape -> bool) (shs : list Shape) : nat :=
  length (List.filter P shs).

Definition both_bonus (shs : list Shape) : nat :=
  if existsb is_title_ph shs && existsb is_content_ph shs then 5 else 0.

(** The score in the words of the specification: +2 if the slide has a
    title placeholder, +3 if it has a body or object placeholder, +5 if it
    has both. *)
Definition spec_score (slide : Slide) : nat :=
  (if existsb is_title_ph (shapes slide) then 2 else 0)
  + (if existsb is_content_ph (shapes slide) then 3 else 0)
  + both_bonus (shapes slide).

(** The selection in the words of the specification: the first slide, in
    document order, of strictly highest [spec_score]. *)
Definition spec_find_best (prs : Presentation) : option Slide :=
  fst (fold_left (fun st slide =>
                    if decide (snd st < spec_score slide)
                    then (Some slide, spec_score slide) else st)
                 (slides prs) (None, 0)).

(** Position of the last element that satisfies [P]. *)
Fixpoint last_index {A} (P : A -> bool) (i : nat) (l : list A) (acc : option nat)
    : option nat :=
  match l with
  | [] => acc
  | x :: l' => last_index P (S i) l' (if P x then Some i else acc)
  end.

(** The text of the paragraphs of a shape. *)
Definition paragraph_texts (s : Shape) : list string :=
  match text_frame s with Some tf => map ptext tf | None => [] end.

Definition is_picture (s : Shape) : bool :=
  match kind s with Picture _ => true | _ => false end.

(** The text frame of the copy of a text shape: the source's text, then the
    paragraph formatting of the common prefix. *)
Definition formatted_copy (source_tf : TextFrame) : TextFrame :=
  snd (copy_text_formatting source_tf (tf_set_text (tf_get_text source_tf))).

(** What copying one exemplar shape adds to the target slide: one shape, or
    nothing when the shape is skipped. *)
Definition copied_shapes (env : Env) (src : Shape) : list Shape :=
  match shape_type src with
  | Ok PICTURE =>
      match image_blob src with
      | Ok b =>
          if accepts_image env b
          then [mkShape (Picture (Some b)) (left src) (top src) (width src) (height src)
                        (Some (default 0%Z (rotation src)))]
          else []
      | Raise _ => []
      end
  | Ok TEXT_BOX | Ok AUTO_SHAPE =>
      match text_frame src with
      | Some tf => [mkShape (TextBox (formatted_copy tf)) (left src) (top src)
                            (width src) (height src) (Some 0%Z)]
      | None => []
      end
  | _ => []
  end.

(** The paragraph appended for one more point. *)
Definition point_paragraph (t : string) : Paragraph := mkParagraph t 0 None None None.

(** The text frame after [tf.clear()] and the point-population rule. *)
Definition filled_frame (points : list string) (tf : TextFrame) : TextFrame :=
  match points, tf_clear tf with
  | p0 :: rest, p :: _ => set_ptext p0 p :: map point_paragraph rest
  | _, cleared => cleared
  end.

Definition fill_shape (points : list string) (s : Shape) : Shape :=
  set_text_frame (filled_frame points (default [] (text_frame s))) s.

(** The slide after [populate_slide_content], in closed form: the last title
    placeholder and the last body-or-object placeholder of the scan are the
    two shapes written. *)
Definition populated (content : ContentItem) (sl : Slide) : Slide :=
  let shs := shapes sl in
  let shs1 :=
    match last_index is_title_ph 0 shs None with
    | Some i => if truthy (get_title content)
                then alter (set_shape_text (get_title content)) i shs else shs
    | None => shs
    end in
  let shs2 :=
    match last_index is_content_ph 0 shs None, get_points content with
    | Some j, _ :: _ => alter (fill_shape (get_points content)) j shs1
    | _, _ => shs1
    end in
  set_shapes shs2 sl.

(** The slide that [duplicate_slide_with_content] appends. *)
Definition built_slide (env : Env) (layout : Layout) (template_slide : option Slide)
    (content : ContentItem) : Slide :=
  let fresh := new_slide_from layout in
  let copied :=
    match template_slide with
    | Some ts =>
        set_shapes (shapes fresh ++
                    concat (map (copied_shapes env)
                                (filter (fun shape => is_placeholder shape = false)
                                        (shapes ts))))
                   fresh
    | None => fresh
    end in
  populated content copied.

(** The slide that the plain builder appends for one item. *)
Definition basic_built (layout : Layout) (content : ContentItem) : Slide :=
  let fresh := new_slide_from layout in
  let shs1 :=
    match shapes_title fresh with
    | Some t => alter (set_shape_text (get_title content)) t (shapes fresh)
    | None => shapes fresh
    end in
  let shs2 :=
    match list_find (fun s => is_body_ph s = true) shs1 with
    | Some (k, _) => alter (fill_shape (get_points content)) k shs1
    | None => shs1
    end in
  set_shapes shs2 fresh.

(** Line 271: the second layout if there is one, else the first. *)
Definition default_layout (env : Env) : Res Layout :=
  if decide (1 < length (default_layouts env))
  then getitem (default_layouts env) 1
  else getitem (default_layouts env) 0.

(** The deck the plain builder has built when it reaches [save]. *)
Definition basic_deck (env : Env) (items : list ContentItem) : Res Presentation :=
  match default_layout env with
  | Ok layout => Ok (mkPresentation (map (basic_built layout) items) (default_layouts env))
  | Raise e => Raise e
  end.

(** Line 26: the exemplar's layout, or the layout at index 1. *)
Definition template_layout (t : Presentation) : Res Layout :=
  match find_best_content_slide t with
  | Some ts => Ok (slide_layout ts)
  | None => getitem (slide_layouts t) 1
  end.

(** The deck the guarded region has built from the template deck [t] when it
    reaches [save]. *)
Definition template_deck (env : Env) (items : list ContentItem) (t : Presentation)
    : Res Presentation :=
  match template_layout t with
  | Ok layout =>
      Ok (mkPresentation (map (built_slide env layout (find_best_content_slide t)) items)
                         (slide_layouts t))
  | Raise e => Raise e
  end.

(** Saving a deck that was built, or passing on the exception that stopped
    the construction. *)
Definition save_outcome (env : Env) (output_path : string) (r : Res Presentation) (fs : FS)
    : Res string * FS :=
  match r with
  | Ok d => if writable env output_path
            then (Ok output_path, <[output_path := Deck d]> fs)
            else (Raise OSError, fs)
  | Raise e => (Raise e, fs)
  end.

(** The invariant of the outer loop of [find_best_content_slide] after the
    slides [pre] have been visited. *)
Definition best_inv (pre : list Slide) (st : option Slide * nat) : Prop :=
  (forall s, s ∈ pre -> slide_score s <= snd st) /\
  match fst st with
  | None => snd st = 0
  | Some best =>
      0 < snd st /\ slide_score best = snd st /\
      exists i, pre !! i = Some best /\
                forall j s, j < i -> pre !! j = Some s -> slide_score s < slide_score best
  end.

(** The deck a run saves if it saves one; the output path plays no part. *)
Definition planned_deck (env : Env) (items : list ContentItem) (tpl : option string)
    (fs : FS) : Res Presentation :=
  match tpl with
  | Some p =>
      if truthy p && bool_decide (is_Some (fs !! p)) then
        match fs !! p with
        | Some (Deck t) =>
            match template_deck env items t with
            | Ok d => Ok d
            | Raise _ => basic_deck env items
            end
        | _ => basic_deck env items
        end
      else basic_deck env items
  | None => basic_deck env items
  end.

(** ** Sample decks *)

Definition ph (ty : PP_PLACEHOLDER) (i : nat) : Shape :=
  mkShape (Placeholder ty i (Some [empty_paragraph])) 0 0 0 0 (Some 0%Z).

Definition lph (ty : PP_PLACEHOLDER) (i : nat) : LayoutPlaceholder :=
  mkLayoutPlaceholder ty i 0 0 0 0.

Definition title_slide_layout : Layout := mkLayout [lph CENTER_TITLE 0; lph SUBTITLE 1].
Definition title_object_layout : Layout := mkLayout [lph TITLE 0; lph OBJECT 1].
Definition title_body_layout : Layout := mkLayout [lph TITLE 0; lph BODY 1].
Definition two_content_layout : Layout :=
  mkLayout [lph TITLE 0; lph OBJECT 1; lph OBJECT 2].

(** An environment in which nothing fails; the second built-in layout holds
    a title and an object placeholder. *)
Definition sample_env : Env :=
  mkEnv [title_slide_layout; title_object_layout] (fun _ => true) (fun _ => true).

Definition logo : Shape :=
  mkShape (Picture (Some [Byte.x89; Byte.x50; Byte.x4e; Byte.x47]))
          100 200 300 400 (Some 15%Z).

Definition linked_logo : Shape := mkShape (Picture None) 100 200 300 400 (Some 15%Z).

Definition caption : Shape :=
  mkShape (TextBox [mkParagraph "Confidential" 0 (Some ALIGN_RIGHT) (Some "Arial") (Some 12%Z)])
          10 20 30 40 (Some 0%Z).

Definition chart : Shape := mkShape (Generic None) 1 2 3 4 None.

Definition title_only_slide : Slide := mkSlide [ph TITLE 0] title_body_layout.
Definition title_body_slide : Slide := mkSlide [ph TITLE 0; ph BODY 1] title_body_layout.
Definition two_content_slide : Slide :=
  mkSlide [ph TITLE 0; ph OBJECT 1; ph OBJECT 2] two_content_layout.
Definition cover_slide : Slide := mkSlide [ph CENTER_TITLE 0; ph SUBTITLE 1] title_slide_layout.

Definition branded_slide : Slide :=
  mkSlide [ph TITLE 0; ph BODY 1; chart; logo; caption] title_body_layout.
Definition linked_slide : Slide :=
  mkSlide [ph TITLE 0; ph BODY 1; linked_logo] title_body_layout.

Definition branded_deck : Presentation :=
  mkPresentation [cover_slide; branded_slide] [title_slide_layout; title_body_layout].
Definition linked_deck : Presentation :=
  mkPresentation [linked_slide] [title_slide_layout; title_body_layout].
Definition tie_deck : Presentation :=
  mkPresentation [title_body_slide; two_content_slide] [title_body_layout; two_content_layout].
Definition cover_deck : Presentation :=
  mkPresentation [cover_slide] [title_slide_layout].

Definition intro_item : ContentItem := mkItem (Some "Intro") (Some ["a"; "b"; "c"]).
Definition end_item : ContentItem := mkItem (Some "End") None.
Definition sample_items : list ContentItem := [intro_item; end_item].

Definition sample_fs : FS :=
  {[ "brand.pptx" := Deck branded_deck; "bad.pptx" := Corrupt;
     "cover.pptx" := Deck cover_deck ]}.

(** [s] holds no line feed. *)
Fixpoint no_newline (s : string) : bool :=
  match s with
  | EmptyString => true
  | String c s' => negb (Ascii.eqb c (Ascii.ascii_of_nat 10)) && no_newline s'
  end.

(** Type and index of a placeholder; nothing for another shape. *)
Definition placeholder_slot (s : Shape) : option (PP_PLACEHOLDER * nat) :=
  match kind s with
  | Placeholder ty i _ => Some (ty, i)
  | _ => None
  end.

(** The shape is a picture or a text box. *)
Definition is_picture_or_textbox (s : Shape) : bool :=
  match kind s with
  | Picture _ | TextBox _ => true
  | _ => false
  end.

(** The source shapes of which [copy_shape_to_slide] makes a copy: a picture
    with readable and accepted image bytes, a text box, an auto shape. *)
Definition copyable (env : Env) (src : Shape) : bool :=
  match kind src with
  | Picture (Some b) => accepts_image env b
  | TextBox _ => true
  | AutoShape _ => true
  | _ => false
  end.

(** A shape and what population may have made of it: the same shape, or the
    same shape with another text frame. *)
Definition same_but_text (s s' : Shape) : Prop :=
  s' = s \/ exists tf, s' = set_text_frame tf s.

(** The template path can build its deck: the template path is given and
    non-empty, the file is a readable deck, and the deck has an exemplar or
    at least two layouts. *)
Definition template_usable (tpl : option string) (fs : FS) : bool :=
  match tpl with
  | Some p =>
      truthy p &&
      match fs !! p with
      | Some (Deck t) =>
          match find_best_content_slide t with
          | Some _ => true
          | None => bool_decide (2 <= length (slide_layouts t))
          end
      | _ => false
      end
  | None => false
  end.

(** The shape has a text frame. *)
Definition has_text_frame (s : Shape) : bool :=
  match text_frame s with Some _ => true | None => false end.

(** The body or object placeholder on which the scan of
    [populate_slide_content] ends can take the points: there is nothing to
    write into it, or it has a text frame. *)
Definition content_frame_ok (content : ContentItem) (sl : Slide) : bool :=
  match snd (scan_placeholders 0 (shapes sl) (None, None)), get_points content with
  | Some j, _ :: _ =>
      match shapes sl !! j with
      | Some s => has_text_frame s
      | None => true
      end
  | _, _ => true
  end.

(** The slide when [populate_slide_content] has written the title and not
    yet the points. *)
Definition title_written (content : ContentItem) (sl : Slide) : Slide :=
  match fst (scan_placeholders 0 (shapes sl) (None, None)) with
  | Some i => if truthy (get_title content)
              then set_shapes (alter (set_shape_text (get_title content)) i (shapes sl)) sl
              else sl
  | None => sl
  end.

(** A character that a paragraph stores as it is: no control character,
    the horizontal tab apart. *)
Definition plain_char (c : Ascii.ascii) : bool :=
  (32 <=? Ascii.nat_of_ascii c) || (Ascii.nat_of_ascii c =? 9).

(** A text for one paragraph: plain characters only. *)
Fixpoint plain_line (s : string) : bool :=
  match s with
  | EmptyString => true
  | String c s' => plain_char c && plain_line s'
  end.

(** A text for a shape: plain characters and line feeds, which separate the
    paragraphs. *)
Fixpoint plain_text (s : string) : bool :=
  match s with
  | EmptyString => true
  | String c s' => (plain_char c || Ascii.eqb c (Ascii.ascii_of_nat 10)) && plain_text s'
  end.

(** The placeholders of the layout are listed by increasing index, so that
    visiting them by index and visiting them in the order of the shapes is
    the same. *)
Fixpoint idx_increasing (lps : list LayoutPlaceholder) : bool :=
  match lps with
  | [] => true
  | lp :: rest =>
      forallb (fun lp' => lph_idx lp <? lph_idx lp') rest && idx_increasing rest
  end.

(** * Properties *)

(** ** TemplateAnalyzer *)

Lemma score_step_fold shs n t c :
  fold_left score_step shs (n, t, c) =
  (n + 2 * count_shapes is_title_ph shs + 3 * count_shapes is_content_ph shs,
   t || existsb is_title_ph shs, c || existsb is_content_ph shs).
Proof.
  revert n t c. induction shs as [|s shs IH]; intros n t c.
  - cbn. rewrite !orb_false_r. f_equal. f_equal. lia.
  - cbn [fold_left]. unfold score_step at 2.
    unfold is_placeholder, placeholder_type, count_shapes, is_title_ph, is_content_ph in *.
    destruct s as [k l tp w h r]; cbn [kind] in *.
    destruct k as [ty i tf| | | |]; try destruct ty; cbn [List.filter existsb kind length];
      rewrite IH; rewrite ?orb_true_r, ?orb_true_l, ?orb_false_l; f_equal; try f_equal;
      cbn [length]; lia.
Qed.

Lemma slide_score_eq slide :
  slide_score slide =
  2 * count_shapes is_title_ph (shapes slide)
  + 3 * count_shapes is_content_ph (shapes slide)
  + both_bonus (shapes slide).
Proof.
  unfold slide_score. rewrite score_step_fold. cbn [orb]. unfold both_bonus.
  destruct (existsb is_title_ph (shapes slide) && existsb is_content_ph (shapes slide)); lia.
Qed.

Lemma count_shapes_zero P shs : count_shapes P shs = 0 <-> existsb P shs = false.
Proof.
  unfold count_shapes. induction shs as [|s shs IH]; cbn; [tauto|].
  destruct (P s); cbn; [split; discriminate | exact IH].
Qed.

Lemma slide_score_zero slide :
  slide_score slide = 0 <->
  existsb is_title_ph (shapes slide) = false /\ existsb is_content_ph (shapes slide) = false.
Proof.
  rewrite slide_score_eq. unfold both_bonus.
  rewrite <- !count_shapes_zero.
  destruct (existsb is_title_ph (shapes slide) && existsb is_content_ph (shapes slide)) eqn:E.
  - apply andb_prop in E as [E1 E2].
    split; [lia|]. intros [H1 H2]. apply count_shapes_zero in H1. congruence.
  - lia.
Qed.

Lemma best_step_inv pre st slide :
  best_inv pre st -> best_inv (pre ++ [slide]) (best_step st slide).
Proof.
  destruct st as [best bs]. unfold best_inv, best_step. cbn [fst snd].
  intros [Hmax Hbest].
  destruct (decide (bs < slide_score slide)) as [Hlt|Hge]; cbn [fst snd].
  - split.
    + intros s Hs. apply elem_of_app in Hs as [Hs|Hs].
      * specialize (Hmax s Hs). lia.
      * apply list_elem_of_singleton in Hs. subst. lia.
    + split; [lia|]. split; [reflexivity|].
      exists (length pre). split.
      * rewrite lookup_app_r by lia. by rewrite Nat.sub_diag.
      * intros j s Hj Hs. rewrite lookup_app_l in Hs by lia.
        assert (s ∈ pre) by (apply list_elem_of_lookup; eauto).
        specialize (Hmax s H). lia.
  - split.
    + intros s Hs. apply elem_of_app in Hs as [Hs|Hs].
      * by apply Hmax.
      * apply list_elem_of_singleton in Hs. subst. lia.
    + destruct best as [b|]; [|exact Hbest].
      destruct Hbest as (Hpos & Hsc & i & Hi & Hfirst).
      split; [exact Hpos|]. split; [exact Hsc|].
      exists i. split.
      * apply lookup_app_l_Some. exact Hi.
      * intros j s Hj Hs. apply (Hfirst j s Hj).
        apply lookup_lt_Some in Hi.
        rewrite lookup_app_l in Hs by lia. exact Hs.
Qed.

Lemma best_fold_inv sls pre st :
  best_inv pre st -> best_inv (pre ++ sls) (fold_left best_step sls st).
Proof.
  revert pre st. induction sls as [|s sls IH]; intros pre st H.
  - by rewrite app_nil_r.
  - cbn [fold_left]. replace (pre ++ s :: sls) with ((pre ++ [s]) ++ sls)
      by (by rewrite <- app_assoc).
    apply IH. by apply best_step_inv.
Qed.

Lemma find_best_inv prs :
  best_inv (slides prs) (fold_left best_step (slides prs) (None, 0)).
Proof.
  apply (best_fold_inv (slides prs) [] (None, 0)).
  split; [|reflexivity]. intros s Hs. by apply elem_of_nil in Hs.
Qed.

(** ** Running computations *)

Lemma lookup_snoc {A} (l : list A) (x : A) : (l ++ [x]) !! length l = Some x.
Proof. by apply list_lookup_middle. Qed.

Lemma insert_snoc {A} (l : list A) (x y : A) : <[length l := y]> (l ++ [x]) = l ++ [y].
Proof. induction l as [|a l IH]; [reflexivity | cbn; f_equal; exact IH]. Qed.

Lemma set_shapes_id sl : set_shapes (shapes sl) sl = sl.
Proof. by destruct sl. Qed.

Lemma set_slides_id prs : set_slides (slides prs) prs = prs.
Proof. by destruct prs. Qed.

Lemma bind_eq {S A B} (m : M S A) (k : A -> M S B) s a s' :
  m s = (Ok a, s') -> bind m k s = k a s'.
Proof. unfold bind. by intros ->. Qed.

(** A handler that only reports swallows every exception. *)
Lemma try_except_swallow {S} (body : M S unit) s :
  try_except body (fun _ => ret tt) s = (Ok tt, snd (body s)).
Proof.
  unfold try_except, ret. destruct (body s) as [[[]|e] s']; reflexivity.
Qed.

(** A loop whose body always succeeds and appends [added x] to a list-like
    state appends the concatenation. *)
Lemma for_each_append {S A B} (proj : S -> list B) (upd : list B -> S -> S)
    (added : A -> list B) (body : A -> M S unit) (xs : list A) s :
  (forall l s0, proj (upd l s0) = l) ->
  (forall l l' s0, upd l (upd l' s0) = upd l s0) ->
  (forall s0, upd (proj s0) s0 = s0) ->
  (forall x s0, body x s0 = (Ok tt, upd (proj s0 ++ added x) s0)) ->
  for_each xs body s = (Ok tt, upd (proj s ++ concat (map added xs)) s).
Proof.
  intros Hpu Huu Hid Hbody. revert s. induction xs as [|x xs IH]; intros s; cbn.
  - unfold ret. by rewrite app_nil_r, Hid.
  - erewrite bind_eq by apply Hbody. rewrite IH, Hpu, Huu. by rewrite app_assoc.
Qed.

Lemma on_shape_last {A} (m : M Shape A) shs x sl :
  on_shape (length shs) m (set_shapes (shs ++ [x]) sl) =
  (fst (m x), set_shapes (shs ++ [snd (m x)]) sl).
Proof.
  unfold on_shape, zoom. cbn [shapes set_shapes]. rewrite lookup_snoc.
  destruct (m x) as [r x']. cbn. by rewrite insert_snoc.
Qed.

(** ** ShapeReplicator *)

Section Replicator.

Context (env : Env).

Lemma copy_image_shape_eq src sl :
  shape_type src = Ok PICTURE ->
  copy_image_shape env src sl = (Ok tt, set_shapes (shapes sl ++ copied_shapes env src) sl).
Proof.
  intros Hty. unfold copy_image_shape, copied_shapes. rewrite Hty.
  rewrite try_except_swallow. f_equal.
  unfold bind, lift_res, add_picture.
  destruct (image_blob src) as [b|e]; cbn [snd].
  - destruct (accepts_image env b); cbn [snd].
    + destruct (rotation src) as [r|]; cbn [default].
      * rewrite (on_shape_last _ (shapes sl)). reflexivity.
      * reflexivity.
    + by rewrite app_nil_r, set_shapes_id.
  - by rewrite app_nil_r, set_shapes_id.
Qed.

Lemma copy_text_or_shape_eq src sl :
  shape_type src = Ok TEXT_BOX \/ shape_type src = Ok AUTO_SHAPE ->
  copy_text_or_shape src sl = (Ok tt, set_shapes (shapes sl ++ copied_shapes env src) sl).
Proof.
  intros Hty. unfold copy_text_or_shape.
  rewrite try_except_swallow. f_equal.
  assert (copied_shapes env src =
          match text_frame src with
          | Some tf => [mkShape (TextBox (formatted_copy tf)) (left src) (top src)
                                (width src) (height src) (Some 0%Z)]
          | None => []
          end) as ->.
  { unfold copied_shapes. destruct Hty as [-> | ->]; reflexivity. }
  destruct (text_frame src) as [tf|]; cbn [snd].
  - unfold bind at 1, add_textbox.
    unfold bind. rewrite (on_shape_last _ (shapes sl)). cbv [modify fst snd].
    rewrite (on_shape_last _ (shapes sl)).
    unfold on_text_frame, zoom, set_shape_text, set_text_frame, text_frame, formatted_copy.
    cbn [kind left top width height rotation].
    destruct (copy_text_formatting tf (tf_set_text (tf_get_text tf))) as [r tf'].
    reflexivity.
  - unfold ret. cbn. by rewrite app_nil_r, set_shapes_id.
Qed.

Lemma copy_shape_to_slide_eq src sl :
  copy_shape_to_slide env src sl = (Ok tt, set_shapes (shapes sl ++ copied_shapes env src) sl).
Proof.
  unfold copy_shape_to_slide. rewrite try_except_swallow. f_equal.
  unfold bind at 1, lift_res.
  destruct (shape_type src) as [st|e] eqn:Hty.
  - destruct (decide (st = PICTURE)) as [->|Hne].
    + by rewrite copy_image_shape_eq.
    + unfold bind, lift_res.
      destruct (decide (st = TEXT_BOX \/ st = AUTO_SHAPE)) as [Ht|Hnt].
      * rewrite copy_text_or_shape_eq; [reflexivity|].
        destruct Ht as [-> | ->]; auto.
      * rewrite try_except_swallow. cbn [snd].
        unfold copy_generic_shape. rewrite try_except_swallow. cbn.
        unfold copied_shapes. rewrite Hty.
        destruct st; try (by rewrite app_nil_r, set_shapes_id); tauto.
  - cbn [snd]. unfold copied_shapes. rewrite Hty.
    by rewrite app_nil_r, set_shapes_id.
Qed.

Lemma copy_template_visual_elements_eq ts sl :
  copy_template_visual_elements env ts sl =
  (Ok tt,
   set_shapes (shapes sl ++
               concat (map (copied_shapes env)
                           (filter (fun shape => is_placeholder shape = false) (shapes ts))))
              sl).
Proof.
  unfold copy_template_visual_elements. rewrite try_except_swallow. f_equal.
  rewrite (for_each_append shapes set_shapes (copied_shapes env)); try reflexivity.
  - apply set_shapes_id.
  - apply copy_shape_to_slide_eq.
Qed.

End Replicator.

(** ** ContentPopulator *)

Lemma last_index_snoc {A} (P : A -> bool) i (l : list A) x acc :
  last_index P i (l ++ [x]) acc =
  if P x then Some (i + length l) else last_index P i l acc.
Proof.
  revert i acc. induction l as [|a l IH]; intros i acc; cbn.
  - by rewrite Nat.add_0_r.
  - rewrite IH. by replace (S i + length l) with (i + S (length l)) by lia.
Qed.

Lemma last_index_Some {A} (P : A -> bool) (l : list A) j :
  last_index P 0 l None = Some j ->
  exists x, l !! j = Some x /\ P x = true /\
            forall k y, j < k -> l !! k = Some y -> P y = false.
Proof.
  revert j. induction l as [|x l IH] using rev_ind; intros j; [discriminate|].
  rewrite last_index_snoc. destruct (P x) eqn:Px.
  - intros [= <-]. exists x. cbn. split; [apply lookup_snoc|]. split; [exact Px|].
    intros k y Hk Hy. apply lookup_lt_Some in Hy. rewrite length_app in Hy. cbn in Hy. lia.
  - intros Hj. destruct (IH j Hj) as (y & Hy & Py & Hlater).
    exists y. split; [by apply lookup_app_l_Some|]. split; [exact Py|].
    intros k z Hk Hz.
    destruct (decide (k < length l)) as [Hlt|Hge].
    + rewrite lookup_app_l in Hz by exact Hlt. by apply (Hlater k).
    + assert (k = length l) as ->.
      { apply lookup_lt_Some in Hz. rewrite length_app in Hz. cbn in Hz. lia. }
      rewrite lookup_snoc in Hz. congruence.
Qed.

Lemma last_index_None {A} (P : A -> bool) (l : list A) :
  last_index P 0 l None = None <-> existsb P l = false.
Proof.
  induction l as [|x l IH] using rev_ind; [cbn; tauto|].
  rewrite last_index_snoc, existsb_app. cbn. rewrite orb_false_r.
  destruct (P x); [|rewrite orb_false_r; exact IH].
  rewrite orb_true_r. split; discriminate.
Qed.

Lemma scan_placeholders_eq i shs t c :
  scan_placeholders i shs (t, c) =
  (last_index is_title_ph i shs t, last_index is_content_ph i shs c).
Proof.
  revert i t c. induction shs as [|s shs IH]; intros i t c; [reflexivity|].
  cbn [scan_placeholders last_index]. unfold scan_step.
  unfold is_placeholder, placeholder_type, is_title_ph, is_content_ph.
  destruct s as [k l tp w h r]; cbn [kind].
  destruct k as [ty ix tf| | | |]; try destruct ty; apply IH.
Qed.

Lemma tf_clear_single tf : exists p, tf_clear tf = [p].
Proof. destruct tf; cbn; eauto. Qed.

Lemma on_paragraph_last (f : Paragraph -> Paragraph) (tf : TextFrame) p :
  on_paragraph (length tf) (modify f) (tf ++ [p]) = (Ok tt, tf ++ [f p]).
Proof.
  unfold on_paragraph, zoom. cbv beta. rewrite lookup_snoc. cbn. by rewrite insert_snoc.
Qed.

Lemma fill_rest_eq (rest : list string) (tf : TextFrame) :
  for_each rest (fun point_text =>
      let! new_para := add_paragraph in
      on_paragraph new_para (modify (set_ptext point_text)) ;;
      on_paragraph new_para (modify (set_level 0))) tf
  = (Ok tt, tf ++ map point_paragraph rest).
Proof.
  revert tf. induction rest as [|t rest IH]; intros tf; cbn [for_each map].
  - unfold ret. by rewrite app_nil_r.
  - unfold bind at 1. unfold bind at 1. unfold add_paragraph.
    unfold bind at 1. rewrite on_paragraph_last, on_paragraph_last.
    rewrite IH. by rewrite <- app_assoc.
Qed.

Lemma fill_eq (points : list string) (tf : TextFrame) :
  (modify tf_clear ;; fill_points points) tf = (Ok tt, filled_frame points tf).
Proof.
  unfold bind at 1, modify, filled_frame.
  destruct (tf_clear_single tf) as [p ->].
  destruct points as [|p0 rest]; [reflexivity|].
  unfold fill_points. unfold bind at 1.
  change [p] with ([] ++ [p]) at 1.
  rewrite (on_paragraph_last (set_ptext p0) []). cbn [app].
  by rewrite fill_rest_eq.
Qed.

Lemma insert_alter {A} (f : A -> A) (l : list A) i x :
  l !! i = Some x -> <[i := f x]> l = alter f i l.
Proof.
  revert i. induction l as [|a l IH]; intros [|i] H; try discriminate.
  - by injection H as ->.
  - cbn. f_equal. by apply IH.
Qed.

Lemma on_shape_modify (f : Shape -> Shape) i sl s :
  shapes sl !! i = Some s ->
  on_shape i (modify f) sl = (Ok tt, set_shapes (alter f i (shapes sl)) sl).
Proof.
  intros H. unfold on_shape, zoom, modify. rewrite H. by rewrite (insert_alter f _ _ _ H).
Qed.

Lemma on_shape_fill points i sl s :
  shapes sl !! i = Some s -> has_text_frame s = true ->
  on_shape i (on_text_frame (modify tf_clear ;; fill_points points)) sl
  = (Ok tt, set_shapes (alter (fill_shape points) i (shapes sl)) sl).
Proof.
  intros H Hph. unfold on_shape, zoom at 1. rewrite H.
  unfold on_text_frame, zoom.
  assert (exists tf, text_frame s = Some tf) as [tf Htf].
  { unfold has_text_frame in Hph. destruct (text_frame s); [eauto | discriminate]. }
  rewrite Htf, fill_eq.
  rewrite <- (insert_alter (fill_shape points) _ _ _ H).
  unfold fill_shape. by rewrite Htf.
Qed.

Lemma title_not_content s : is_title_ph s = true -> is_content_ph s = true -> False.
Proof.
  unfold is_title_ph, is_content_ph. destruct (kind s) as [[] ? ?| | | |]; discriminate.
Qed.

Lemma content_is_placeholder s : is_content_ph s = true -> is_placeholder s = true.
Proof.
  unfold is_content_ph, is_placeholder. by destruct (kind s) as [[] ? ?| | | |].
Qed.

Lemma title_is_placeholder s : is_title_ph s = true -> is_placeholder s = true.
Proof.
  unfold is_title_ph, is_placeholder. by destruct (kind s) as [[] ? ?| | | |].
Qed.

Lemma has_text_frame_set_text_frame tf s :
  has_text_frame (set_text_frame tf s) = has_text_frame s.
Proof.
  unfold has_text_frame, text_frame, set_text_frame. cbn [kind].
  by destruct (kind s) as [? ? []| | | |].
Qed.

Lemma content_frame_ok_at content sl j sc p0 rest :
  content_frame_ok content sl = true ->
  last_index is_content_ph 0 (shapes sl) None = Some j ->
  shapes sl !! j = Some sc -> get_points content = p0 :: rest ->
  has_text_frame sc = true.
Proof.
  unfold content_frame_ok. rewrite scan_placeholders_eq. cbn [snd].
  intros Hok Hj Hsc Hp. by rewrite Hj, Hp, Hsc in Hok.
Qed.

Lemma populate_slide_content_eq content sl :
  content_frame_ok content sl = true ->
  populate_slide_content content sl = (Ok tt, populated content sl).
Proof.
  intros Hok. unfold populate_slide_content, populated.
  unfold bind at 1, get. rewrite scan_placeholders_eq. cbn [fst snd].
  destruct (last_index is_title_ph 0 (shapes sl) None) as [i|] eqn:Hi.
  - destruct (last_index_Some _ _ _ Hi) as (st & Hst & Pst & _).
    destruct (last_index is_content_ph 0 (shapes sl) None) as [j|] eqn:Hj.
    + destruct (last_index_Some _ _ _ Hj) as (sc & Hsc & Psc & _).
      assert (i <> j) as Hij.
      { intros ->. rewrite Hsc in Hst. injection Hst as ->.
        exact (title_not_content _ Pst Psc). }
      destruct (truthy (get_title content)).
      * rewrite (bind_eq _ _ _ _ _ (on_shape_modify _ _ _ _ Hst)).
        destruct (get_points content) as [|p0 rest] eqn:Hp; [by unfold ret|].
        erewrite on_shape_fill;
          [reflexivity| |exact (content_frame_ok_at _ _ _ _ _ _ Hok Hj Hsc Hp)].
        cbn [shapes set_shapes]. by rewrite list_lookup_alter_ne.
      * unfold bind at 1, ret.
        destruct (get_points content) as [|p0 rest] eqn:Hp; [by rewrite set_shapes_id|].
        erewrite on_shape_fill;
          [reflexivity|exact Hsc|exact (content_frame_ok_at _ _ _ _ _ _ Hok Hj Hsc Hp)].
    + destruct (truthy (get_title content)).
      * rewrite (bind_eq _ _ _ _ _ (on_shape_modify _ _ _ _ Hst)). by unfold ret.
      * unfold bind, ret. by rewrite set_shapes_id.
  - unfold bind at 1, ret.
    destruct (last_index is_content_ph 0 (shapes sl) None) as [j|] eqn:Hj.
    + destruct (last_index_Some _ _ _ Hj) as (sc & Hsc & Psc & _).
      destruct (get_points content) as [|p0 rest] eqn:Hp; [by rewrite set_shapes_id|].
      erewrite on_shape_fill;
        [reflexivity|exact Hsc|exact (content_frame_ok_at _ _ _ _ _ _ Hok Hj Hsc Hp)].
    + by rewrite set_shapes_id.
Qed.

Lemma copied_shapes_not_placeholder env src :
  Forall (fun s => is_placeholder s = false) (copied_shapes env src).
Proof.
  unfold copied_shapes.
  destruct (shape_type src) as [[]|]; try (by constructor);
    repeat case_match; repeat constructor.
Qed.

Lemma content_frame_ok_Forall content sl :
  Forall (fun s => is_content_ph s = true -> has_text_frame s = true) (shapes sl) ->
  content_frame_ok content sl = true.
Proof.
  intros Hall. unfold content_frame_ok. rewrite scan_placeholders_eq. cbn [snd].
  destruct (last_index is_content_ph 0 (shapes sl) None) as [j|] eqn:Hj; [|reflexivity].
  destruct (get_points content); [reflexivity|].
  destruct (last_index_Some _ _ _ Hj) as (sc & Hsc & Psc & _). rewrite Hsc.
  rewrite Forall_forall in Hall. apply Hall; [|exact Psc].
  apply list_elem_of_lookup. eauto.
Qed.

Lemma fresh_frames layout :
  Forall (fun s => has_text_frame s = true) (shapes (new_slide_from layout)).
Proof.
  unfold new_slide_from. cbn [shapes]. apply Forall_map, Forall_forall. by intros lp _.
Qed.

Lemma fresh_lookup layout k s :
  shapes (new_slide_from layout) !! k = Some s -> exists lp, s = instantiate lp.
Proof.
  unfold new_slide_from. cbn [shapes].
  change (map instantiate (layout_placeholders layout))
    with (instantiate <$> layout_placeholders layout).
  rewrite list_lookup_fmap.
  destruct (layout_placeholders layout !! k) as [lp|]; [|discriminate].
  cbn. intros [= <-]. eauto.
Qed.

Lemma content_frame_ok_built content layout added :
  Forall (fun s => is_placeholder s = false) added ->
  content_frame_ok content
    (set_shapes (shapes (new_slide_from layout) ++ added) (new_slide_from layout)) = true.
Proof.
  intros Hadd. apply content_frame_ok_Forall. cbn [shapes set_shapes].
  apply Forall_app. split.
  - eapply Forall_impl; [apply fresh_frames|]. by intros s Hs _.
  - eapply Forall_impl; [exact Hadd|]. intros s Hs Hc.
    apply content_is_placeholder in Hc. congruence.
Qed.

Lemma content_frame_ok_fresh content layout :
  content_frame_ok content (new_slide_from layout) = true.
Proof.
  apply content_frame_ok_Forall.
  eapply Forall_impl; [apply fresh_frames|]. by intros s Hs _.
Qed.

(** ** SlideFactory *)

Lemma on_slide_last {A} (m : M Slide A) sls x prs :
  on_slide (length sls) m (set_slides (sls ++ [x]) prs) =
  (fst (m x), set_slides (sls ++ [snd (m x)]) prs).
Proof.
  unfold on_slide, zoom. cbn [slides set_slides]. rewrite lookup_snoc.
  destruct (m x) as [r x']. cbn. by rewrite insert_snoc.
Qed.

Lemma duplicate_slide_with_content_eq env layout template_slide content prs :
  duplicate_slide_with_content env layout template_slide content prs =
  (Ok (length (slides prs)),
   set_slides (slides prs ++ [built_slide env layout template_slide content]) prs).
Proof.
  unfold duplicate_slide_with_content, built_slide.
  unfold bind at 1, add_slide.
  change (mkPresentation (slides prs ++ [new_slide_from layout]) (slide_layouts prs))
    with (set_slides (slides prs ++ [new_slide_from layout]) prs).
  destruct template_slide as [ts|].
  - unfold bind at 1. rewrite on_slide_last, copy_template_visual_elements_eq. cbn [fst snd].
    unfold bind at 1. rewrite on_slide_last, populate_slide_content_eq; [reflexivity|].
    apply content_frame_ok_built, Forall_concat, Forall_map, Forall_forall.
    intros src _. apply copied_shapes_not_placeholder.
  - unfold bind at 1, ret at 1.
    unfold bind at 1. rewrite on_slide_last, populate_slide_content_eq; [reflexivity|].
    apply content_frame_ok_fresh.
Qed.

(** ** FallbackBuilder *)

Lemma body_is_placeholder s : is_body_ph s = true -> is_placeholder s = true.
Proof.
  unfold is_body_ph, is_placeholder. by destruct (kind s) as [[] ? ?| | | |].
Qed.

Lemma fill_first_body_eq content shs i sl :
  drop i (shapes sl) = shs ->
  Forall (fun s => has_text_frame s = true) shs ->
  fill_first_body i shs content sl =
  (Ok tt,
   match list_find (fun s => is_body_ph s = true) shs with
   | Some (k, _) => set_shapes (alter (fill_shape (get_points content)) (i + k) (shapes sl)) sl
   | None => sl
   end).
Proof.
  revert i. induction shs as [|shape rest IH]; intros i Hdrop Hall; [reflexivity|].
  apply Forall_cons in Hall as [Hshape Hall].
  assert (shapes sl !! i = Some shape) as Hi.
  { rewrite <- (Nat.add_0_r i), <- lookup_drop, Hdrop. reflexivity. }
  assert (drop (S i) (shapes sl) = rest) as Hrest.
  { replace (S i) with (i + 1) by lia. rewrite <- drop_drop, Hdrop. reflexivity. }
  cbn [fill_first_body list_find].
  destruct (decide (is_body_ph shape = true)) as [Hb|Hnb].
  - rewrite (body_is_placeholder _ Hb).
    assert (placeholder_type shape = Ok BODY) as ->.
    { unfold is_body_ph in Hb. unfold placeholder_type.
      by destruct (kind shape) as [[] ? ?| | | |]. }
    cbn [fmap option_fmap option_map]. rewrite Nat.add_0_r.
    apply (on_shape_fill _ _ _ shape Hi). exact Hshape.
  - assert (fill_first_body (S i) rest content sl =
            (if is_placeholder shape
             then match placeholder_type shape with
                  | Ok BODY =>
                      on_shape i (on_text_frame
                                    (modify tf_clear ;; fill_points (get_points content)))
                  | Ok _ => fill_first_body (S i) rest content
                  | Raise e => raise e
                  end
             else fill_first_body (S i) rest content) sl) as <-.
    { unfold is_body_ph in Hnb. unfold is_placeholder, placeholder_type.
      destruct (kind shape) as [[] ? ?| | | |]; try reflexivity. congruence. }
    rewrite (IH (S i) Hrest Hall).
    destruct (list_find (fun s => is_body_ph s = true) rest) as [[k x]|]; cbn.
    + by replace (i + S k) with (S (i + k)) by lia.
    + reflexivity.
Qed.

Lemma shapes_title_lookup sl t :
  shapes_title sl = Some t -> exists s, shapes sl !! t = Some s.
Proof.
  unfold shapes_title.
  destruct (list_find _ (shapes sl)) as [[k x]|] eqn:Hf; [|discriminate].
  intros [= <-]. apply list_find_Some in Hf as (H & _). eauto.
Qed.

Lemma basic_fill_eq layout content :
  basic_fill content (new_slide_from layout) = (Ok tt, basic_built layout content).
Proof.
  unfold basic_fill, basic_built. unfold bind at 1, get.
  set (fresh := new_slide_from layout).
  destruct (shapes_title fresh) as [t|] eqn:Ht.
  - destruct (shapes_title_lookup _ _ Ht) as [s Hs].
    rewrite (bind_eq _ _ _ _ _ (on_shape_modify _ _ _ _ Hs)).
    unfold bind at 1. rewrite fill_first_body_eq; [|reflexivity|].
    + cbn [shapes set_shapes Nat.add].
      destruct (list_find _ _) as [[k x]|]; reflexivity.
    + cbn [shapes set_shapes]. apply Forall_alter; [apply fresh_frames|].
      intros x _ Hx. unfold set_shape_text. by rewrite has_text_frame_set_text_frame.
  - unfold bind at 1, ret. unfold bind at 1.
    rewrite fill_first_body_eq; [|reflexivity|apply fresh_frames]. cbn [Nat.add].
    destruct (list_find _ _) as [[k x]|]; [reflexivity|by rewrite set_shapes_id].
Qed.

Lemma basic_slide_eq layout content prs :
  basic_slide layout content prs =
  (Ok tt, set_slides (slides prs ++ [basic_built layout content]) prs).
Proof.
  unfold basic_slide. unfold bind, add_slide.
  change (mkPresentation (slides prs ++ [new_slide_from layout]) (slide_layouts prs))
    with (set_slides (slides prs ++ [new_slide_from layout]) prs).
  rewrite on_slide_last, basic_fill_eq. reflexivity.
Qed.

Lemma concat_map_singleton {A B} (f : A -> B) (l : list A) :
  concat (map (fun x => [f x]) l) = map f l.
Proof. induction l as [|a l IH]; cbn; [reflexivity | by rewrite IH]. Qed.

Lemma create_basic_presentation_eq env items out fs :
  create_basic_presentation env items out fs =
  save_outcome env out (basic_deck env items) fs.
Proof.
  unfold create_basic_presentation, basic_deck, default_layout, save_outcome.
  unfold bind at 1, lift_res, Presentation_new. cbn [slide_layouts].
  destruct (if decide (1 < length (default_layouts env))
            then getitem (default_layouts env) 1
            else getitem (default_layouts env) 0) as [layout|e]; [|reflexivity].
  unfold bind at 1, run_local.
  rewrite (for_each_append slides set_slides (fun c => [basic_built layout c]));
    try reflexivity; [|apply set_slides_id|apply basic_slide_eq].
  rewrite concat_map_singleton. cbn [snd slides set_slides app].
  unfold bind, save, ret. destruct (writable env out); reflexivity.
Qed.

(** ** Orchestrator *)

Lemma delete_snoc {A} (l : list A) x : delete (length l) (l ++ [x]) = l.
Proof. induction l as [|a l IH]; [reflexivity | cbn; f_equal; exact IH]. Qed.

Lemma remove_loop_eq sls prs :
  for_each (rev (seq 0 (length sls))) (fun i => on_sldIdLst (delitem i)) (set_slides sls prs)
  = (Ok tt, set_slides [] prs).
Proof.
  induction sls as [|x sls IH] using rev_ind; [reflexivity|].
  rewrite length_app. cbn [length]. rewrite Nat.add_1_r, seq_S, rev_unit.
  cbn [for_each Nat.add]. unfold bind at 1.
  unfold on_sldIdLst at 1, zoom, delitem. cbn [slides set_slides].
  destruct (decide (length sls < length (sls ++ [x]))) as [_|Hn].
  - rewrite delete_snoc. exact IH.
  - rewrite length_app in Hn. cbn in Hn. lia.
Qed.

Lemma remove_all_slides_eq prs : remove_all_slides prs = (Ok tt, set_slides [] prs).
Proof.
  unfold remove_all_slides. unfold bind, get.
  rewrite <- (set_slides_id prs) at 2. apply remove_loop_eq.
Qed.

Lemma template_body_eq env items out p fs :
  template_body env items out p fs =
  match fs !! p with
  | Some (Deck t) => save_outcome env out (template_deck env items t) fs
  | _ => (Raise PackageNotFoundError, fs)
  end.
Proof.
  unfold template_body. unfold bind at 1, Presentation_open.
  destruct (fs !! p) as [[|t]|] eqn:Hp; try reflexivity.
  unfold template_deck, template_layout, save_outcome.
  unfold bind at 1.
  destruct (find_best_content_slide t) as [ts|] eqn:Hbest.
  - unfold ret at 1. unfold bind at 1. rewrite Hp.
    unfold bind at 1, run_local. unfold bind at 1. rewrite remove_all_slides_eq.
    rewrite (for_each_append slides set_slides
               (fun c => [built_slide env (slide_layout ts) (Some ts) c]));
      try reflexivity; [|apply set_slides_id|].
    + rewrite concat_map_singleton. cbn [snd slides set_slides app].
      unfold bind, save, ret. destruct (writable env out); reflexivity.
    + intros c prs. unfold bind. by rewrite duplicate_slide_with_content_eq.
  - unfold lift_res. destruct (getitem (slide_layouts t) 1) as [layout|e]; [|reflexivity].
    unfold bind at 1. rewrite Hp.
    unfold bind at 1, run_local. unfold bind at 1. rewrite remove_all_slides_eq.
    rewrite (for_each_append slides set_slides
               (fun c => [built_slide env layout None c]));
      try reflexivity; [|apply set_slides_id|].
    + rewrite concat_map_singleton. cbn [snd slides set_slides app].
      unfold bind, save, ret. destruct (writable env out); reflexivity.
    + intros c prs. unfold bind. by rewrite duplicate_slide_with_content_eq.
Qed.

Lemma create_ppt_from_template_eq env items out tpl fs :
  create_ppt_from_template env items out tpl fs =
  match tpl with
  | Some p =>
      if truthy p && bool_decide (is_Some (fs !! p))
      then try_except (template_body env items out p)
                      (fun _ => create_basic_presentation env items out) fs
      else create_basic_presentation env items out fs
  | None => create_basic_presentation env items out fs
  end.
Proof.
  unfold create_ppt_from_template, bind, get.
  destruct tpl as [p|]; [|reflexivity].
  destruct (truthy p && bool_decide (is_Some (fs !! p))); reflexivity.
Qed.

Lemma save_outcome_Ok env out r fs x fs' :
  save_outcome env out r fs = (Ok x, fs') ->
  exists d, r = Ok d /\ writable env out = true /\ x = out /\ fs' = <[out := Deck d]> fs.
Proof.
  unfold save_outcome. destruct r as [d|e]; [|discriminate].
  destruct (writable env out); [|discriminate].
  intros [= <- <-]. eauto.
Qed.

Lemma save_outcome_Raise env out r fs e fs' :
  save_outcome env out r fs = (Raise e, fs') ->
  fs' = fs /\ (r = Raise e \/ (writable env out = false /\ e = OSError)).
Proof.
  unfold save_outcome. destruct r as [d|e0].
  - destruct (writable env out); [discriminate|]. intros [= <- <-]. auto.
  - intros [= <- <-]. auto.
Qed.

Lemma template_body_Raise env items out p fs e fs1 :
  template_body env items out p fs = (Raise e, fs1) -> fs1 = fs.
Proof.
  rewrite template_body_eq.
  destruct (fs !! p) as [[|t]|]; try (by intros [= _ <-]).
  intros H. by apply save_outcome_Raise in H as [-> _].
Qed.

Lemma template_deck_length env items t d :
  template_deck env items t = Ok d -> length (slides d) = length items.
Proof.
  unfold template_deck. destruct (template_layout t); [|discriminate].
  intros [= <-]. cbn. by rewrite length_map.
Qed.

Lemma basic_deck_length env items d :
  basic_deck env items = Ok d -> length (slides d) = length items.
Proof.
  unfold basic_deck. destruct (default_layout env); [|discriminate].
  intros [= <-]. cbn. by rewrite length_map.
Qed.

Lemma default_layout_Ok env :
  default_layouts env <> [] -> exists layout, default_layout env = Ok layout.
Proof.
  unfold default_layout, getitem. destruct (default_layouts env) as [|l0 [|l1 ls]]; [done| |].
  - intros _. cbn. eauto.
  - intros _. cbn. eauto.
Qed.

Lemma basic_deck_Ok env items :
  default_layouts env <> [] -> exists d, basic_deck env items = Ok d.
Proof.
  intros H. unfold basic_deck. destruct (default_layout_Ok env H) as [layout ->]. eauto.
Qed.

(** The outcome of a whole run: the template deck if it could be built and
    saved, else whatever the plain builder does. *)
Lemma create_ppt_from_template_cases env items out tpl fs :
  (exists p t d, tpl = Some p /\ fs !! p = Some (Deck t) /\
                 template_deck env items t = Ok d /\ writable env out = true /\
                 create_ppt_from_template env items out tpl fs
                 = (Ok out, <[out := Deck d]> fs))
  \/ create_ppt_from_template env items out tpl fs
     = create_basic_presentation env items out fs.
Proof.
  rewrite create_ppt_from_template_eq.
  destruct tpl as [p|]; [|by right].
  destruct (truthy p && bool_decide (is_Some (fs !! p))); [|by right].
  unfold try_except. rewrite template_body_eq.
  destruct (fs !! p) as [[|t]|] eqn:Hp; [by right| |by right].
  unfold save_outcome.
  destruct (template_deck env items t) as [d|e] eqn:Hd; [|by right].
  destruct (writable env out) eqn:Hw; [|by right].
  left. exists p, t, d. auto.
Qed.

Lemma run_result env items out tpl fs r fs' :
  create_ppt_from_template env items out tpl fs = (Ok r, fs') ->
  r = out /\ writable env out = true /\
  exists d, fs' = <[out := Deck d]> fs /\ length (slides d) = length items /\
            ((exists p t, tpl = Some p /\ fs !! p = Some (Deck t) /\
                          template_deck env items t = Ok d)
             \/ basic_deck env items = Ok d).
Proof.
  destruct (create_ppt_from_template_cases env items out tpl fs)
    as [(p & t & d & -> & Hp & Hd & Hw & ->)| ->].
  - intros [= <- <-]. split; [done|]. split; [done|]. exists d.
    split; [done|]. split; [by eapply template_deck_length|]. left. eauto.
  - rewrite create_basic_presentation_eq. intros H.
    apply save_outcome_Ok in H as (d & Hd & Hw & -> & ->).
    split; [done|]. split; [done|]. exists d.
    split; [done|]. split; [by eapply basic_deck_length|]. by right.
Qed.

Lemma run_returns env items out tpl fs :
  writable env out = true -> default_layouts env <> [] ->
  exists fs', create_ppt_from_template env items out tpl fs = (Ok out, fs').
Proof.
  intros Hw Hl.
  destruct (create_ppt_from_template_cases env items out tpl fs)
    as [(p & t & d & _ & _ & _ & _ & ->)| ->]; [eauto|].
  rewrite create_basic_presentation_eq.
  destruct (basic_deck_Ok env items Hl) as [d ->]. cbn. rewrite Hw. eauto.
Qed.

(** * The claims *)

(** C1. A run on a readable template whose layout can be chosen (the
    exemplar's, or the one at index 1), to a path that can be written,
    stays on the template path and saves there a deck with the template's
    layouts and exactly one slide per content item, each made from the
    chosen layout. The plain builder, when the library's built-in template
    has a layout and the path can be written, saves a deck with exactly one
    slide per content item. Conversely, on the template path, on the plain
    path and for a whole run, whatever returns has saved at the output path
    a deck with exactly one slide per content item; and a whole run returns
    whenever the output path can be written and the built-in template has a
    layout. *)
Theorem saved_deck_slide_count env items out tpl fs :
  (forall p t layout,
     truthy p = true -> fs !! p = Some (Deck t) ->
     (exists ex, find_best_content_slide t = Some ex /\ slide_layout ex = layout) \/
     (find_best_content_slide t = None /\ slide_layouts t !! 1 = Some layout) ->
     writable env out = true ->
     exists d,
       template_body env items out p fs = (Ok out, <[out := Deck d]> fs) /\
       create_ppt_from_template env items out (Some p) fs
       = (Ok out, <[out := Deck d]> fs) /\
       length (slides d) = length items /\
       slide_layouts d = slide_layouts t /\
       Forall (fun sl => slide_layout sl = layout) (slides d)) /\
  (writable env out = true -> default_layouts env <> [] ->
     exists d,
       create_basic_presentation env items out fs = (Ok out, <[out := Deck d]> fs) /\
       length (slides d) = length items /\
       slide_layouts d = default_layouts env) /\
  (forall p r fs', template_body env items out p fs = (Ok r, fs') ->
     exists d, fs' !! out = Some (Deck d) /\ length (slides d) = length items) /\
  (forall r fs', create_basic_presentation env items out fs = (Ok r, fs') ->
     exists d, fs' !! out = Some (Deck d) /\ length (slides d) = length items) /\
  (forall r fs', create_ppt_from_template env items out tpl fs = (Ok r, fs') ->
     r = out /\
     exists d, fs' !! out = Some (Deck d) /\ length (slides d) = length items) /\
  (writable env out = true -> default_layouts env <> [] ->
     exists fs', create_ppt_from_template env items out tpl fs = (Ok out, fs')).
Proof.
  split; [|split; [|split; [|split; [|split]]]].
  - intros p t layout Ht Hp Hlay Hw.
    assert (template_layout t = Ok layout) as Hl.
    { unfold template_layout, getitem.
      destruct Hlay as [(ex & -> & <-)|[-> ->]]; reflexivity. }
    assert (template_body env items out p fs
            = (Ok out,
               <[out := Deck (mkPresentation
                                (map (built_slide env layout (find_best_content_slide t))
                                     items)
                                (slide_layouts t))]> fs)) as Hbody.
    { rewrite template_body_eq, Hp. unfold template_deck. rewrite Hl.
      unfold save_outcome. by rewrite Hw. }
    eexists. split; [exact Hbody|]. split; [|split; [|split]].
    + rewrite create_ppt_from_template_eq, Ht.
      rewrite bool_decide_eq_true_2 by (rewrite Hp; eauto).
      unfold try_except. by rewrite Hbody.
    + cbn. apply length_map.
    + reflexivity.
    + cbn [slides]. apply Forall_map, Forall_forall. intros c _.
      unfold built_slide, populated, set_shapes. cbn [slide_layout].
      by destruct (find_best_content_slide t).
  - intros Hw Hl. rewrite create_basic_presentation_eq.
    unfold basic_deck. destruct (default_layout_Ok env Hl) as [layout ->].
    unfold save_outcome. rewrite Hw. eexists. split; [reflexivity|].
    split; [cbn; apply length_map | reflexivity].
  - intros p r fs'. rewrite template_body_eq.
    destruct (fs !! p) as [[|t]|]; try discriminate.
    intros H. apply save_outcome_Ok in H as (d & Hd & _ & _ & ->).
    exists d. split; [apply lookup_insert_eq | by eapply template_deck_length].
  - intros r fs'. rewrite create_basic_presentation_eq.
    intros H. apply save_outcome_Ok in H as (d & Hd & _ & _ & ->).
    exists d. split; [apply lookup_insert_eq | by eapply basic_deck_length].
  - intros r fs' H. apply run_result in H as (-> & _ & d & -> & Hlen & _).
    split; [reflexivity|].
    exists d. split; [apply lookup_insert_eq | exact Hlen].
  - apply run_returns.
Qed.

Lemma saved_deck_slide_count_witness :
  exists d,
    template_body sample_env sample_items "out.pptx" "brand.pptx" sample_fs
    = (Ok "out.pptx", <["out.pptx" := Deck d]> sample_fs) /\
    create_ppt_from_template sample_env sample_items "out.pptx" (Some "brand.pptx")
      sample_fs
    = (Ok "out.pptx", <["out.pptx" := Deck d]> sample_fs) /\
    length (slides d) = 2 /\
    slide_layouts d = slide_layouts branded_deck.
Proof.
  destruct (saved_deck_slide_count sample_env sample_items "out.pptx"
              (Some "brand.pptx") sample_fs) as (H & _).
  destruct (H "brand.pptx" branded_deck title_body_layout)
    as (d & Hbody & Hrun & Hlen & Hlay & _).
  - reflexivity.
  - vm_compute. reflexivity.
  - left. exists branded_slide. split; [vm_compute|]; reflexivity.
  - reflexivity.
  - exists d. split; [exact Hbody|]. split; [exact Hrun|].
    split; [exact Hlen | exact Hlay].
Defined.

(** C2. When the template exists, any exception of the guarded region leaves
    the file system as it was and the run is exactly a run of the plain
    builder on the same output path; for a corrupt template the run is the
    plain builder's and returns a saved deck whenever the plain builder can
    work; and a run only raises what the plain builder raised. *)
Theorem template_failure_falls_back env items out p fs :
  truthy p = true -> is_Some (fs !! p) ->
  (forall e fs1, template_body env items out p fs = (Raise e, fs1) ->
     fs1 = fs /\
     create_ppt_from_template env items out (Some p) fs
     = create_basic_presentation env items out fs) /\
  (fs !! p = Some Corrupt ->
     create_ppt_from_template env items out (Some p) fs
     = create_basic_presentation env items out fs /\
     (writable env out = true -> default_layouts env <> [] ->
      exists d, basic_deck env items = Ok d /\
                create_ppt_from_template env items out (Some p) fs
                = (Ok out, <[out := Deck d]> fs))) /\
  (forall e fs', create_ppt_from_template env items out (Some p) fs = (Raise e, fs') ->
     create_basic_presentation env items out fs = (Raise e, fs')).
Proof.
  intros Ht Hex.
  assert (create_ppt_from_template env items out (Some p) fs =
          try_except (template_body env items out p)
                     (fun _ => create_basic_presentation env items out) fs) as Heq.
  { rewrite create_ppt_from_template_eq, Ht. by rewrite bool_decide_eq_true_2. }
  assert (forall e fs1, template_body env items out p fs = (Raise e, fs1) ->
            fs1 = fs /\
            create_ppt_from_template env items out (Some p) fs
            = create_basic_presentation env items out fs) as Hfall.
  { intros e fs1 H. pose proof (template_body_Raise _ _ _ _ _ _ _ H) as ->.
    split; [done|]. rewrite Heq. unfold try_except. by rewrite H. }
  split; [exact Hfall|]. split.
  - intros Hc.
    assert (template_body env items out p fs = (Raise PackageNotFoundError, fs)) as Hb.
    { rewrite template_body_eq. by rewrite Hc. }
    destruct (Hfall _ _ Hb) as [_ Hrun]. split; [exact Hrun|].
    intros Hw Hl. rewrite Hrun, create_basic_presentation_eq.
    destruct (basic_deck_Ok env items Hl) as [d Hd]. exists d. split; [exact Hd|].
    rewrite Hd. cbn. by rewrite Hw.
  - intros e fs' H. rewrite Heq in H. unfold try_except in H.
    destruct (template_body env items out p fs) as [[r|e0] fs1] eqn:Hb; [discriminate|].
    apply template_body_Raise in Hb as ->. exact H.
Qed.

Lemma template_failure_falls_back_witness :
  create_ppt_from_template sample_env sample_items "out.pptx" (Some "bad.pptx") sample_fs
  = create_basic_presentation sample_env sample_items "out.pptx" sample_fs
  /\ exists d, create_ppt_from_template sample_env sample_items "out.pptx"
                 (Some "bad.pptx") sample_fs
               = (Ok "out.pptx", <["out.pptx" := Deck d]> sample_fs).
Proof.
  destruct (template_failure_falls_back sample_env sample_items "out.pptx" "bad.pptx"
              sample_fs) as (_ & H & _).
  - reflexivity.
  - exists Corrupt. vm_compute. reflexivity.
  - destruct H as [Hrun Hret]; [vm_compute; reflexivity|].
    split; [exact Hrun|].
    destruct Hret as (d & _ & Hd); [reflexivity | discriminate |].
    exists d. exact Hd.
Defined.

(** C10. Without an exemplar the layout is read at index 1 whatever the
    number of layouts: for a readable template with no exemplar and fewer
    than two layouts the guarded region raises [IndexError] before anything
    is written, and the run is the plain builder's. *)
Theorem short_layout_list_falls_back env items out p fs t :
  truthy p = true -> fs !! p = Some (Deck t) ->
  find_best_content_slide t = None -> length (slide_layouts t) < 2 ->
  template_layout t = Raise IndexError /\
  template_body env items out p fs = (Raise IndexError, fs) /\
  create_ppt_from_template env items out (Some p) fs
  = create_basic_presentation env items out fs.
Proof.
  intros Ht Hp Hbest Hlen.
  assert (template_layout t = Raise IndexError) as Hlay.
  { unfold template_layout, getitem. rewrite Hbest.
    rewrite (proj2 (lookup_ge_None (slide_layouts t) 1)) by lia. reflexivity. }
  assert (template_body env items out p fs = (Raise IndexError, fs)) as Hb.
  { rewrite template_body_eq, Hp. unfold template_deck. by rewrite Hlay. }
  split; [exact Hlay|]. split; [exact Hb|].
  rewrite create_ppt_from_template_eq, Ht.
  rewrite bool_decide_eq_true_2 by (rewrite Hp; eauto).
  unfold try_except. by rewrite Hb.
Qed.

Lemma short_layout_list_falls_back_witness :
  template_body sample_env sample_items "out.pptx" "cover.pptx" sample_fs
  = (Raise IndexError, sample_fs)
  /\ create_ppt_from_template sample_env sample_items "out.pptx" (Some "cover.pptx") sample_fs
     = create_basic_presentation sample_env sample_items "out.pptx" sample_fs.
Proof.
  destruct (short_layout_list_falls_back sample_env sample_items "out.pptx" "cover.pptx"
              sample_fs cover_deck) as (_ & Hb & Hrun).
  - reflexivity.
  - vm_compute. reflexivity.
  - reflexivity.
  - cbn. lia.
  - split; [exact Hb | exact Hrun].
Defined.

Lemma run_saves_planned_deck env items out tpl fs r fs' :
  create_ppt_from_template env items out tpl fs = (Ok r, fs') ->
  exists d, planned_deck env items tpl fs = Ok d /\ fs' = <[out := Deck d]> fs.
Proof.
  rewrite create_ppt_from_template_eq. unfold planned_deck.
  assert (create_basic_presentation env items out fs = (Ok r, fs') ->
          exists d, basic_deck env items = Ok d /\ fs' = <[out := Deck d]> fs) as Hbasic.
  { rewrite create_basic_presentation_eq. intros H.
    apply save_outcome_Ok in H as (d & Hd & _ & _ & ->). eauto. }
  destruct tpl as [p|]; [|exact Hbasic].
  destruct (truthy p && bool_decide (is_Some (fs !! p))); [|exact Hbasic].
  unfold try_except. rewrite template_body_eq.
  destruct (fs !! p) as [[|t]|]; [exact Hbasic| |exact Hbasic].
  unfold save_outcome at 1.
  destruct (template_deck env items t) as [d|e]; [|exact Hbasic].
  destruct (writable env out) eqn:Hw.
  - intros [= <- <-]. eauto.
  - rewrite create_basic_presentation_eq. unfold save_outcome. rewrite Hw.
    destruct (basic_deck env items); discriminate.
Qed.

Lemma planned_deck_insert env items tpl fs out d :
  tpl <> Some out ->
  planned_deck env items tpl (<[out := Deck d]> fs) = planned_deck env items tpl fs.
Proof.
  intros Hne. unfold planned_deck. destruct tpl as [p|]; [|reflexivity].
  assert (<[out := Deck d]> fs !! p = fs !! p) as ->; [|reflexivity].
  apply lookup_insert_ne. congruence.
Qed.

(** C8, as stated, fails when the first of the two calls writes to the
    template path itself. Here the file at the template path is not a
    readable deck: the first call falls back to the plain builder and saves
    its deck over that file; the second call, with the same items and the
    same template path, now opens that deck as its template, finds an
    exemplar in it and populates the object placeholder that the plain
    builder had left empty. The two decks have the same number of slides
    and different placeholder text. *)
Lemma overwritten_template_changes_second_run :
  let fs1 := snd (create_ppt_from_template sample_env [intro_item] "bad.pptx"
                    (Some "bad.pptx") sample_fs) in
  let fs2 := snd (create_ppt_from_template sample_env [intro_item] "out.pptx"
                    (Some "bad.pptx") fs1) in
  fst (create_ppt_from_template sample_env [intro_item] "bad.pptx" (Some "bad.pptx")
         sample_fs) = Ok "bad.pptx" /\
  fst (create_ppt_from_template sample_env [intro_item] "out.pptx" (Some "bad.pptx") fs1)
  = Ok "out.pptx" /\
  match fs2 !! "bad.pptx", fs2 !! "out.pptx" with
  | Some (Deck d1), Some (Deck d2) =>
      map (fun sl => map paragraph_texts (shapes sl)) (slides d1)
      = [[["Intro"]; [EmptyString]]] /\
      map (fun sl => map paragraph_texts (shapes sl)) (slides d2)
      = [[["Intro"]; ["a"; "b"; "c"]]]
  | _, _ => False
  end.
Proof. vm_compute. repeat split; reflexivity. Qed.

(** C8, amended. Two successive runs with the same items and the same
    template path, to two different output paths of which the first is not
    the template path, that both return have saved one and the same deck:
    after the second run both output paths hold it, with one slide per
    item, so slide counts, the text of every placeholder and the bytes of
    every copied picture agree. Both runs return whenever both output paths
    can be written and the library's built-in template has a layout. *)
Theorem successive_runs_same_deck env items tpl fs out1 out2 :
  out1 <> out2 -> tpl <> Some out1 ->
  (forall r1 r2 fs1 fs2,
     create_ppt_from_template env items out1 tpl fs = (Ok r1, fs1) ->
     create_ppt_from_template env items out2 tpl fs1 = (Ok r2, fs2) ->
     exists d, fs1 !! out1 = Some (Deck d) /\
               fs2 !! out1 = Some (Deck d) /\ fs2 !! out2 = Some (Deck d) /\
               length (slides d) = length items) /\
  (writable env out1 = true -> writable env out2 = true -> default_layouts env <> [] ->
   exists fs1 fs2,
     create_ppt_from_template env items out1 tpl fs = (Ok out1, fs1) /\
     create_ppt_from_template env items out2 tpl fs1 = (Ok out2, fs2)).
Proof.
  intros Hout Htpl. split.
  - intros r1 r2 fs1 fs2 H1 H2.
    pose proof (run_result _ _ _ _ _ _ _ H1) as (_ & _ & d0 & Hfs1 & Hlen & _).
    apply run_saves_planned_deck in H1 as (d1 & Hd1 & ->).
    apply run_saves_planned_deck in H2 as (d2 & Hd2 & ->).
    rewrite planned_deck_insert in Hd2 by exact Htpl.
    assert (d2 = d1) as -> by congruence.
    assert (d0 = d1) as ->.
    { assert (<[out1 := Deck d1]> fs !! out1 = <[out1 := Deck d0]> fs !! out1) as E
        by (by rewrite Hfs1).
      rewrite !lookup_insert_eq in E. congruence. }
    exists d1. split; [apply lookup_insert_eq|]. split.
    + rewrite lookup_insert_ne by congruence. apply lookup_insert_eq.
    + split; [apply lookup_insert_eq | exact Hlen].
  - intros Hw1 Hw2 Hl.
    destruct (run_returns env items out1 tpl fs Hw1 Hl) as [fs1 H1].
    destruct (run_returns env items out2 tpl fs1 Hw2 Hl) as [fs2 H2].
    eauto.
Qed.

Lemma successive_runs_same_deck_witness :
  let fs1 := snd (create_ppt_from_template sample_env sample_items "one.pptx"
                    (Some "brand.pptx") sample_fs) in
  let fs2 := snd (create_ppt_from_template sample_env sample_items "two.pptx"
                    (Some "brand.pptx") fs1) in
  exists d, fs2 !! "one.pptx" = Some (Deck d) /\ fs2 !! "two.pptx" = Some (Deck d).
Proof.
  intros fs1 fs2.
  destruct (successive_runs_same_deck sample_env sample_items (Some "brand.pptx")
              sample_fs "one.pptx" "two.pptx") as [H _]; [discriminate..|].
  destruct (H "one.pptx" "two.pptx" fs1 fs2) as (d & _ & H1 & H2 & _);
    [vm_compute; reflexivity | vm_compute; reflexivity |].
  exists d. split; [exact H1 | exact H2].
Defined.

(** C7. [copy_template_visual_elements] returns normally on every exemplar
    and every target slide. The target keeps all the shapes it had, at their
    positions, and its layout; what is added is, shape by shape of the
    exemplar, what [copy_shape_to_slide] adds for that shape alone, which is
    nothing for a shape whose copy fails, and never a placeholder. *)
Theorem copy_never_raises env ts target :
  let added :=
    concat (map (copied_shapes env)
                (filter (fun shape => is_placeholder shape = false) (shapes ts))) in
  copy_template_visual_elements env ts target
  = (Ok tt, set_shapes (shapes target ++ added) target) /\
  (forall i s, shapes target !! i = Some s ->
     shapes (snd (copy_template_visual_elements env ts target)) !! i = Some s) /\
  slide_layout (snd (copy_template_visual_elements env ts target)) = slide_layout target /\
  Forall (fun s => is_placeholder s = false) added /\
  (forall src sl,
     copy_shape_to_slide env src sl
     = (Ok tt, set_shapes (shapes sl ++ copied_shapes env src) sl)) /\
  (forall src e, shape_type src = Raise e -> copied_shapes env src = []) /\
  (forall src e, shape_type src = Ok PICTURE -> image_blob src = Raise e ->
     copied_shapes env src = []) /\
  (forall src b, shape_type src = Ok PICTURE -> image_blob src = Ok b ->
     accepts_image env b = false -> copied_shapes env src = []).
Proof.
  intros added. rewrite copy_template_visual_elements_eq. cbn [snd].
  split; [reflexivity|]. split.
  { intros i s Hi. cbn [shapes set_shapes]. by apply lookup_app_l_Some. }
  split; [reflexivity|]. split.
  { unfold added. apply Forall_concat, Forall_map, Forall_forall.
    intros src _. apply copied_shapes_not_placeholder. }
  split; [apply copy_shape_to_slide_eq|].
  unfold copied_shapes. split; [|split].
  - by intros src e ->.
  - by intros src e -> ->.
  - by intros src b -> -> ->.
Qed.

Lemma copy_never_raises_witness :
  fst (copy_template_visual_elements sample_env branded_slide
         (new_slide_from title_body_layout)) = Ok tt /\
  shapes (snd (copy_template_visual_elements sample_env branded_slide
                 (new_slide_from title_body_layout))) !! 1
  = Some (instantiate (lph BODY 1)).
Proof.
  destruct (copy_never_raises sample_env branded_slide (new_slide_from title_body_layout))
    as (H & Hkeep & _).
  split.
  - rewrite H. reflexivity.
  - apply Hkeep. reflexivity.
Defined.

(** Three of the five visual shapes of the exemplar cannot be copied; the
    other two still are, and the placeholders of the target are untouched. *)
Example copy_skips_failures :
  map kind (shapes (snd (copy_template_visual_elements sample_env
                           (mkSlide [chart; linked_logo; logo; chart; caption] title_body_layout)
                           (new_slide_from title_body_layout))))
  = [Placeholder TITLE 0 (Some [empty_paragraph]);
     Placeholder BODY 1 (Some [empty_paragraph]);
     kind logo; kind caption].
Proof. vm_compute. reflexivity. Qed.

(** C3, as the specification words it, fails on a deck whose second slide
    has two object placeholders: both slides have a title and a content
    area, so the specification's score is 10 for both and its rule selects
    the first; the code adds 3 for each of the two object placeholders,
    scores the second slide 13 and selects it. *)
Lemma find_best_counts_every_placeholder :
  spec_score title_body_slide = 10 /\ spec_score two_content_slide = 10 /\
  spec_find_best tie_deck = Some title_body_slide /\
  slide_score title_body_slide = 10 /\ slide_score two_content_slide = 13 /\
  find_best_content_slide tie_deck = Some two_content_slide /\
  find_best_content_slide tie_deck <> spec_find_best tie_deck.
Proof. vm_compute. repeat split; try reflexivity. discriminate. Qed.

(** C3, amended. The score of a slide is 2 for each of its title
    placeholders plus 3 for each of its body or object placeholders, plus 5
    if it has both kinds. [find_best_content_slide] returns a slide of
    positive score that no slide of the deck beats and that every earlier
    slide is strictly below, or nothing when every slide scores 0; a slide
    that scores 2 is never returned from a deck holding a slide that scores
    10. *)
Theorem find_best_max_score prs :
  (forall slide,
     slide_score slide =
     2 * count_shapes is_title_ph (shapes slide)
     + 3 * count_shapes is_content_ph (shapes slide)
     + both_bonus (shapes slide)) /\
  match find_best_content_slide prs with
  | Some best =>
      0 < slide_score best /\
      (forall s, s ∈ slides prs -> slide_score s <= slide_score best) /\
      exists i, slides prs !! i = Some best /\
                forall j s, j < i -> slides prs !! j = Some s ->
                            slide_score s < slide_score best
  | None => forall s, s ∈ slides prs -> slide_score s = 0
  end /\
  (forall a b, a ∈ slides prs -> slide_score a = 10 -> slide_score b = 2 ->
     find_best_content_slide prs <> Some b).
Proof.
  pose proof (find_best_inv prs) as [Hmax Hbest].
  unfold find_best_content_slide.
  destruct (fold_left best_step (slides prs) (None, 0)) as [best bs]. cbn [fst snd] in *.
  split; [apply slide_score_eq|]. split.
  - destruct best as [b|].
    + destruct Hbest as (Hpos & Hsc & i & Hi & Hfirst). rewrite Hsc.
      split; [exact Hpos|]. split; [exact Hmax|]. exists i. split; [exact Hi|].
      intros j s Hj Hs. rewrite <- Hsc. by apply (Hfirst j).
    + intros s Hs. specialize (Hmax s Hs). lia.
  - intros a b Ha Hsa Hsb [= ->].
    destruct Hbest as (_ & Hsc & _). specialize (Hmax a Ha). lia.
Qed.

Lemma find_best_max_score_witness :
  find_best_content_slide
    (mkPresentation [title_only_slide; title_body_slide] [title_body_layout])
  <> Some title_only_slide.
Proof.
  destruct (find_best_max_score
              (mkPresentation [title_only_slide; title_body_slide] [title_body_layout]))
    as (_ & _ & H).
  apply (H title_body_slide title_only_slide).
  - apply list_elem_of_lookup. exists 1. reflexivity.
  - reflexivity.
  - reflexivity.
Defined.

(** The example of the specification, in both orders. *)
Example title_body_beats_title_only :
  find_best_content_slide
    (mkPresentation [title_only_slide; title_body_slide] [title_body_layout])
  = Some title_body_slide /\
  find_best_content_slide
    (mkPresentation [title_body_slide; title_only_slide] [title_body_layout])
  = Some title_body_slide /\
  slide_score title_only_slide = 2 /\ slide_score title_body_slide = 10.
Proof. vm_compute. repeat split; reflexivity. Qed.

(** ** What population keeps *)

Lemma is_placeholder_set_text_frame tf s :
  is_placeholder (set_text_frame tf s) = is_placeholder s.
Proof.
  unfold is_placeholder, set_text_frame. cbn [kind].
  by destruct (kind s) as [? ? []| | | |].
Qed.

Lemma new_slide_placeholders layout :
  Forall (fun s => is_placeholder s = true) (shapes (new_slide_from layout)).
Proof.
  unfold new_slide_from. cbn [shapes]. apply Forall_map, Forall_forall. by intros lp _.
Qed.

Lemma populated_placeholders content sl :
  Forall (fun s => is_placeholder s = true) (shapes sl) ->
  Forall (fun s => is_placeholder s = true) (shapes (populated content sl)).
Proof.
  intros H. unfold populated. cbn [shapes set_shapes].
  set (shs1 := match last_index is_title_ph 0 (shapes sl) None with
               | Some i => if truthy (get_title content)
                           then alter (set_shape_text (get_title content)) i (shapes sl)
                           else shapes sl
               | None => shapes sl
               end).
  assert (Forall (fun s => is_placeholder s = true) shs1) as H1.
  { unfold shs1. destruct (last_index _ _ _ _); [|exact H].
    destruct (truthy _); [|exact H].
    apply Forall_alter; [exact H|]. intros x _ Hx.
    unfold set_shape_text. by rewrite is_placeholder_set_text_frame. }
  destruct (last_index is_content_ph 0 (shapes sl) None); [|exact H1].
  destruct (get_points content); [exact H1|].
  apply Forall_alter; [exact H1|]. intros x _ Hx.
  unfold fill_shape. by rewrite is_placeholder_set_text_frame.
Qed.

Lemma alter_keeps_visual (f : Shape -> Shape) i (l : list Shape) x :
  x ∈ l -> is_placeholder x = false ->
  (forall y, l !! i = Some y -> is_placeholder y = true) ->
  x ∈ alter f i l.
Proof.
  intros Hx Hnp Hi. apply list_elem_of_lookup in Hx as [k Hk].
  apply list_elem_of_lookup. exists k.
  rewrite list_lookup_alter_ne; [exact Hk|].
  intros ->. specialize (Hi x Hk). congruence.
Qed.

Lemma populated_keeps_visual content sl x :
  x ∈ shapes sl -> is_placeholder x = false -> x ∈ shapes (populated content sl).
Proof.
  intros Hx Hnp. unfold populated. cbn [shapes set_shapes].
  set (shs1 := match last_index is_title_ph 0 (shapes sl) None with
               | Some i => if truthy (get_title content)
                           then alter (set_shape_text (get_title content)) i (shapes sl)
                           else shapes sl
               | None => shapes sl
               end).
  assert (x ∈ shs1) as H1.
  { unfold shs1. destruct (last_index is_title_ph 0 (shapes sl) None) as [i|] eqn:Hi;
      [|exact Hx].
    destruct (truthy _); [|exact Hx].
    apply alter_keeps_visual; [exact Hx|exact Hnp|].
    intros y Hy. destruct (last_index_Some _ _ _ Hi) as (s & Hs & Ps & _).
    rewrite Hs in Hy. injection Hy as <-. by apply title_is_placeholder. }
  assert (forall j y, shs1 !! j = Some y ->
                      exists y0, shapes sl !! j = Some y0 /\
                                 is_placeholder y = is_placeholder y0) as Hsame.
  { intros j y. unfold shs1.
    destruct (last_index is_title_ph 0 (shapes sl) None) as [i|]; [|by eauto].
    destruct (truthy _); [|by eauto].
    rewrite list_lookup_alter. destruct (decide (i = j)) as [->|_]; [|by eauto].
    destruct (shapes sl !! j) as [y0|]; [|discriminate].
    cbn. intros [= <-]. exists y0. split; [reflexivity|].
    unfold set_shape_text. by rewrite is_placeholder_set_text_frame. }
  destruct (last_index is_content_ph 0 (shapes sl) None) as [j|] eqn:Hj; [|exact H1].
  destruct (get_points content); [exact H1|].
  apply alter_keeps_visual; [exact H1|exact Hnp|].
  intros y Hy. destruct (Hsame j y Hy) as (y0 & Hy0 & ->).
  destruct (last_index_Some _ _ _ Hj) as (sc & Hsc & Psc & _).
  rewrite Hsc in Hy0. injection Hy0 as <-. by apply content_is_placeholder.
Qed.

(** C9. [find_best_content_slide] returns nothing exactly when every slide
    of the deck scores 0, and a slide scores 0 exactly when it has neither a
    title placeholder nor a body or object placeholder; a deck without
    slides is one case. Then each slide of a run that succeeds on the
    template path is the layout at index 1 instantiated and populated: all
    its shapes are placeholders, none is replicated. *)
Theorem no_exemplar_iff_no_score prs :
  (find_best_content_slide prs = None <-> forall s, s ∈ slides prs -> slide_score s = 0) /\
  (forall s, slide_score s = 0 <->
             existsb is_title_ph (shapes s) = false /\
             existsb is_content_ph (shapes s) = false) /\
  (slides prs = [] -> find_best_content_slide prs = None) /\
  (forall env items out p fs layout,
     truthy p = true -> fs !! p = Some (Deck prs) ->
     find_best_content_slide prs = None ->
     slide_layouts prs !! 1 = Some layout -> writable env out = true ->
     let built := map (fun c => snd (populate_slide_content c (new_slide_from layout))) items in
     create_ppt_from_template env items out (Some p) fs
     = (Ok out, <[out := Deck (mkPresentation built (slide_layouts prs))]> fs) /\
     Forall (fun sl => Forall (fun s => is_placeholder s = true) (shapes sl)) built).
Proof.
  assert (find_best_content_slide prs = None <->
          forall s, s ∈ slides prs -> slide_score s = 0) as Hiff.
  { pose proof (find_best_inv prs) as [Hmax Hbest].
    unfold find_best_content_slide.
    destruct (fold_left best_step (slides prs) (None, 0)) as [best bs].
    cbn [fst snd] in *. split.
    - intros ->. intros s Hs. specialize (Hmax s Hs). lia.
    - intros Hzero. destruct best as [b|]; [|reflexivity].
      destruct Hbest as (Hpos & Hsc & i & Hi & _).
      assert (b ∈ slides prs) as Hb by (apply list_elem_of_lookup; eauto).
      specialize (Hzero b Hb). lia. }
  split; [exact Hiff|]. split; [apply slide_score_zero|]. split.
  { intros Hnil. apply Hiff. rewrite Hnil. intros s Hs. by apply elem_of_nil in Hs. }
  intros env items out p fs layout Ht Hp Hbest Hlay Hw built.
  split.
  - rewrite create_ppt_from_template_eq, Ht.
    rewrite bool_decide_eq_true_2 by (rewrite Hp; eauto).
    unfold try_except. rewrite template_body_eq, Hp.
    unfold template_deck, template_layout, getitem. rewrite Hbest, Hlay.
    unfold save_outcome. rewrite Hw. do 3 f_equal. f_equal.
    unfold built. apply map_ext. intros c.
    unfold built_slide.
    by rewrite populate_slide_content_eq by apply content_frame_ok_fresh.
  - unfold built. apply Forall_map, Forall_forall. intros c _.
    rewrite populate_slide_content_eq by apply content_frame_ok_fresh. cbn [snd].
    apply populated_placeholders, new_slide_placeholders.
Qed.

Lemma no_exemplar_iff_no_score_witness :
  find_best_content_slide cover_deck = None.
Proof.
  destruct (no_exemplar_iff_no_score cover_deck) as ([_ H] & _).
  apply H. intros s Hs.
  apply list_elem_of_singleton in Hs. rewrite Hs. reflexivity.
Defined.

(** A deck whose only slide is a cover slide has no exemplar although it has
    a slide; with a second layout the run stays on the template path and
    builds placeholder-only slides. *)
Example cover_deck_two_layouts :
  let t := mkPresentation [cover_slide] [title_slide_layout; title_body_layout] in
  find_best_content_slide t = None /\
  match snd (create_ppt_from_template sample_env sample_items "out.pptx" (Some "t.pptx")
               {[ "t.pptx" := Deck t ]}) !! "out.pptx" with
  | Some (Deck d) =>
      map (fun sl => map paragraph_texts (shapes sl)) (slides d)
      = [[["Intro"]; ["a"; "b"; "c"]]; [["End"]; [EmptyString]]]
  | _ => False
  end.
Proof. vm_compute. split; reflexivity. Qed.

(** ** The point-population rule *)

Lemma filled_frame_cons p0 rest tf :
  exists p, filled_frame (p0 :: rest) tf = set_ptext p0 p :: map point_paragraph rest.
Proof.
  unfold filled_frame. destruct (tf_clear_single tf) as [p ->]. eauto.
Qed.

Lemma filled_frame_texts p0 rest tf :
  map ptext (filled_frame (p0 :: rest) tf) = p0 :: rest.
Proof.
  destruct (filled_frame_cons p0 rest tf) as [p ->]. cbn. f_equal.
  rewrite map_map. cbn. apply map_id.
Qed.

Lemma filled_frame_levels p0 rest tf :
  Forall (fun p => level p = 0) (tail (filled_frame (p0 :: rest) tf)).
Proof.
  destruct (filled_frame_cons p0 rest tf) as [p ->]. cbn.
  apply Forall_map, Forall_forall. by intros t _.
Qed.

Lemma fill_shape_content points s :
  is_content_ph s = true -> has_text_frame s = true ->
  is_content_ph (fill_shape points s) = true /\
  text_frame (fill_shape points s)
  = Some (filled_frame points (default [] (text_frame s))).
Proof.
  unfold is_content_ph, has_text_frame, fill_shape, set_text_frame, text_frame.
  cbn [kind].
  destruct (kind s) as [[] ? []| | | |]; try discriminate; by intros _ _.
Qed.

(** The scan keeps, for each kind, the last placeholder it meets. *)
Lemma scan_selects_last shs :
  scan_placeholders 0 shs (None, None)
  = (last_index is_title_ph 0 shs None, last_index is_content_ph 0 shs None).
Proof. apply scan_placeholders_eq. Qed.

(** Template path: when the slide has a body or object placeholder, the one
    the scan ends on has a text frame, and the item has points, each of
    plain characters, that placeholder ends with exactly the points as its
    paragraphs, the appended ones at level 0. *)
Lemma populate_fills_points content sl p0 rest :
  existsb is_content_ph (shapes sl) = true -> get_points content = p0 :: rest ->
  content_frame_ok content sl = true ->
  Forall (fun p => plain_line p = true) (p0 :: rest) ->
  exists j s' tf,
    snd (scan_placeholders 0 (shapes sl) (None, None)) = Some j /\
    shapes (snd (populate_slide_content content sl)) !! j = Some s' /\
    is_content_ph s' = true /\ text_frame s' = Some tf /\
    map ptext tf = p0 :: rest /\ Forall (fun p => level p = 0) (tail tf).
Proof.
  intros Hex Hpts Hok _. rewrite scan_selects_last, populate_slide_content_eq by exact Hok.
  cbn [snd].
  destruct (last_index is_content_ph 0 (shapes sl) None) as [j|] eqn:Hj.
  2: { apply last_index_None in Hj. congruence. }
  destruct (last_index_Some _ _ _ Hj) as (sc & Hsc & Psc & _).
  destruct (fill_shape_content (p0 :: rest) sc Psc
              (content_frame_ok_at _ _ _ _ _ _ Hok Hj Hsc Hpts)) as [Hc Htf].
  exists j, (fill_shape (p0 :: rest) sc), (filled_frame (p0 :: rest) (default [] (text_frame sc))).
  split; [reflexivity|]. split.
  - unfold populated. rewrite Hj, Hpts. cbn [shapes set_shapes].
    rewrite list_lookup_alter. destruct (decide (j = j)) as [_|]; [|done].
    destruct (last_index is_title_ph 0 (shapes sl) None) as [i|] eqn:Hi;
      [|by rewrite Hsc].
    destruct (truthy (get_title content)); [|by rewrite Hsc].
    destruct (last_index_Some _ _ _ Hi) as (st & Hst & Pst & _).
    rewrite list_lookup_alter_ne; [by rewrite Hsc|].
    intros ->. rewrite Hsc in Hst. injection Hst as ->.
    exact (title_not_content _ Pst Psc).
  - split; [exact Hc|]. split; [exact Htf|].
    split; [apply filled_frame_texts | apply filled_frame_levels].
Qed.

(** The example of the specification on the template path and, with a body
    placeholder in the built-in layout, on the plain path. *)
Example points_a_b_c :
  map paragraph_texts
      (shapes (snd (populate_slide_content intro_item (new_slide_from title_body_layout))))
  = [["Intro"]; ["a"; "b"; "c"]] /\
  match snd (create_ppt_from_template
               (mkEnv [title_slide_layout; title_body_layout] (fun _ => true) (fun _ => true))
               [intro_item] "out.pptx" None ∅) !! "out.pptx" with
  | Some (Deck d) =>
      map (fun sl => map paragraph_texts (shapes sl)) (slides d)
      = [[["Intro"]; ["a"; "b"; "c"]]]
  | _ => False
  end.
Proof. vm_compute. split; reflexivity. Qed.

(** C4. On a slide with a title and two object placeholders the scan ends
    on the second object placeholder (position 2), and it is that one which
    receives the points while the first stays empty; the same holds for
    every slide of a run whose exemplar has this layout. With two title
    placeholders the second receives the title. *)
Lemma populate_writes_last_match :
  scan_placeholders 0 (shapes (new_slide_from two_content_layout)) (None, None)
  = (Some 0, Some 2) /\
  map paragraph_texts
      (shapes (snd (populate_slide_content intro_item (new_slide_from two_content_layout))))
  = [["Intro"]; [EmptyString]; ["a"; "b"; "c"]] /\
  map paragraph_texts
      (shapes (snd (populate_slide_content intro_item
                      (mkSlide [ph TITLE 0; ph TITLE 3; ph BODY 1] title_body_layout))))
  = [[EmptyString]; ["Intro"]; ["a"; "b"; "c"]] /\
  match snd (create_ppt_from_template sample_env [intro_item] "out.pptx" (Some "t.pptx")
               {[ "t.pptx" := Deck tie_deck ]}) !! "out.pptx" with
  | Some (Deck d) =>
      map (fun sl => map paragraph_texts (shapes sl)) (slides d)
      = [[["Intro"]; [EmptyString]; ["a"; "b"; "c"]]]
  | _ => False
  end.
Proof. vm_compute. repeat split; reflexivity. Qed.

(** C5. The plain builder, with a built-in layout whose content placeholder
    is an object placeholder, leaves that placeholder empty although the
    item has points; [populate_slide_content] on the same slide writes
    them. *)
Lemma fallback_skips_object_placeholder :
  match snd (create_ppt_from_template sample_env [intro_item] "out.pptx" None ∅)
        !! "out.pptx" with
  | Some (Deck d) =>
      map (fun sl => map paragraph_texts (shapes sl)) (slides d) = [[["Intro"]; [EmptyString]]]
  | _ => False
  end /\
  map paragraph_texts
      (shapes (snd (populate_slide_content intro_item (new_slide_from title_object_layout))))
  = [["Intro"]; ["a"; "b"; "c"]].
Proof. vm_compute. split; reflexivity. Qed.

(** ** Pictures *)

Lemma copied_picture env src b :
  kind src = Picture (Some b) -> accepts_image env b = true ->
  copied_shapes env src
  = [mkShape (Picture (Some b)) (left src) (top src) (width src) (height src)
             (Some (default 0%Z (rotation src)))].
Proof.
  intros Hk Hb. unfold copied_shapes, shape_type, image_blob. by rewrite Hk, Hb.
Qed.

Lemma built_slide_has_picture env layout ex content src b :
  src ∈ shapes ex -> kind src = Picture (Some b) -> accepts_image env b = true ->
  mkShape (Picture (Some b)) (left src) (top src) (width src) (height src)
          (Some (default 0%Z (rotation src)))
  ∈ shapes (built_slide env layout (Some ex) content).
Proof.
  intros Hsrc Hk Hb. unfold built_slide.
  apply populated_keeps_visual; [|reflexivity].
  cbn [shapes set_shapes]. apply elem_of_app. right.
  apply list_elem_of_In, in_concat.
  exists (copied_shapes env src). split.
  - apply in_map, list_elem_of_In, list_elem_of_filter. split; [|exact Hsrc].
    unfold is_placeholder. by rewrite Hk.
  - rewrite (copied_picture env src b Hk Hb). by left.
Qed.

(** C6, as stated, fails for an exemplar whose picture is linked rather than
    embedded: the exemplar holds a picture shape, reading its image fails,
    the copy is skipped, and no slide of the saved deck holds a picture. *)
Lemma linked_picture_not_copied :
  find_best_content_slide linked_deck = Some linked_slide /\
  existsb is_picture (shapes linked_slide) = true /\
  match snd (create_ppt_from_template sample_env sample_items "out.pptx" (Some "t.pptx")
               {[ "t.pptx" := Deck linked_deck ]}) !! "out.pptx" with
  | Some (Deck d) =>
      length (slides d) = 2 /\
      forallb (fun sl => negb (existsb is_picture (shapes sl))) (slides d) = true
  | _ => False
  end.
Proof. vm_compute. repeat split; reflexivity. Qed.

(** C6, amended. For an exemplar picture whose image bytes can be read and
    are accepted by [add_picture], a run to a writable path stays on the
    template path, and every slide of the saved deck, one per item, holds a
    picture made of these bytes at the source's left, top, width and height,
    with the source's rotation when the source has one. *)
Theorem picture_replicated env items out p fs t ex src b :
  truthy p = true -> fs !! p = Some (Deck t) ->
  find_best_content_slide t = Some ex ->
  src ∈ shapes ex -> kind src = Picture (Some b) -> accepts_image env b = true ->
  writable env out = true ->
  exists d,
    create_ppt_from_template env items out (Some p) fs = (Ok out, <[out := Deck d]> fs) /\
    length (slides d) = length items /\
    Forall (fun sl =>
              exists pic, pic ∈ shapes sl /\ kind pic = Picture (Some b) /\
                          left pic = left src /\ top pic = top src /\
                          width pic = width src /\ height pic = height src /\
                          forall r, rotation src = Some r -> rotation pic = Some r)
           (slides d).
Proof.
  intros Ht Hp Hbest Hsrc Hk Hb Hw.
  exists (mkPresentation (map (built_slide env (slide_layout ex) (Some ex)) items)
                         (slide_layouts t)).
  split; [|split].
  - rewrite create_ppt_from_template_eq, Ht.
    rewrite bool_decide_eq_true_2 by (rewrite Hp; eauto).
    unfold try_except. rewrite template_body_eq, Hp.
    unfold template_deck, template_layout. rewrite Hbest.
    unfold save_outcome. by rewrite Hw.
  - cbn. by rewrite length_map.
  - cbn [slides]. apply Forall_map, Forall_forall. intros c _.
    exists (mkShape (Picture (Some b)) (left src) (top src) (width src) (height src)
                    (Some (default 0%Z (rotation src)))).
    split; [by apply built_slide_has_picture|].
    cbn. repeat split; try reflexivity. by intros r ->.
Qed.

Lemma picture_replicated_witness :
  exists d,
    create_ppt_from_template sample_env sample_items "out.pptx" (Some "brand.pptx") sample_fs
    = (Ok "out.pptx", <["out.pptx" := Deck d]> sample_fs) /\
    length (slides d) = 2 /\
    Forall (fun sl =>
              exists pic, pic ∈ shapes sl /\ kind pic = kind logo /\
                          left pic = 100%Z /\ top pic = 200%Z /\
                          width pic = 300%Z /\ height pic = 400%Z /\
                          forall r, rotation logo = Some r -> rotation pic = Some r)
           (slides d).
Proof.
  apply (picture_replicated sample_env sample_items "out.pptx" "brand.pptx" sample_fs
           branded_deck branded_slide logo
           [Byte.x89; Byte.x50; Byte.x4e; Byte.x47]).
  - reflexivity.
  - vm_compute. reflexivity.
  - vm_compute. reflexivity.
  - apply list_elem_of_lookup. exists 3. reflexivity.
  - reflexivity.
  - reflexivity.
  - reflexivity.
Defined.

(** * Further properties of the generator *)

(** ** Text of a shape: splitting and joining lines *)

Lemma append_nil_r (s : string) : s +:+ EmptyString = s.
Proof.
  induction s as [|c s IH]; [reflexivity|].
  change (String c (s +:+ EmptyString) = String c s). by rewrite IH.
Qed.

Lemma append_assoc (s t u : string) : (s +:+ t) +:+ u = s +:+ (t +:+ u).
Proof.
  induction s as [|c s IH]; [reflexivity|].
  change (String c ((s +:+ t) +:+ u) = String c (s +:+ (t +:+ u))). by rewrite IH.
Qed.

Lemma split_lines_nonempty cur s : split_lines cur s <> [].
Proof.
  revert cur. induction s as [|c s IH]; intros cur; cbn; [discriminate|].
  destruct (Ascii.eqb c (Ascii.ascii_of_nat 10)); [discriminate | apply IH].
Qed.

(** Joining the lines of a text gives the text back. *)
Lemma join_split_lines s cur :
  String.concat newline (split_lines cur s) = cur +:+ s.
Proof.
  revert cur. induction s as [|c s IH]; intros cur; cbn [split_lines].
  - cbn [String.concat]. by rewrite append_nil_r.
  - destruct (Ascii.eqb c (Ascii.ascii_of_nat 10)) eqn:Hc.
    + apply Ascii.eqb_eq in Hc. subst c.
      specialize (IH EmptyString).
      pose proof (split_lines_nonempty EmptyString s) as Hne.
      destruct (split_lines EmptyString s) as [|x xs]; [done|].
      change (String.concat newline (cur :: x :: xs))
        with (cur +:+ newline +:+ String.concat newline (x :: xs)).
      rewrite IH. reflexivity.
    + rewrite IH, append_assoc. reflexivity.
Qed.

Lemma split_lines_no_newline s cur :
  no_newline s = true -> split_lines cur s = [cur +:+ s].
Proof.
  revert cur. induction s as [|c s IH]; intros cur H; cbn [split_lines no_newline] in *.
  - by rewrite append_nil_r.
  - apply andb_prop in H as [Hc Hs]. apply negb_true_iff in Hc. rewrite Hc.
    rewrite (IH _ Hs), append_assoc. reflexivity.
Qed.

Lemma split_lines_app_newline s t cur :
  no_newline s = true ->
  split_lines cur (s +:+ newline +:+ t) = (cur +:+ s) :: split_lines EmptyString t.
Proof.
  revert cur. induction s as [|c s IH]; intros cur H.
  - change (EmptyString +:+ newline +:+ t) with (String (Ascii.ascii_of_nat 10) t).
    cbn [split_lines]. rewrite Ascii.eqb_refl. by rewrite append_nil_r.
  - change (String c s +:+ newline +:+ t) with (String c (s +:+ newline +:+ t)).
    cbn [split_lines no_newline] in *.
    apply andb_prop in H as [Hc Hs]. apply negb_true_iff in Hc. rewrite Hc.
    rewrite (IH _ Hs), append_assoc. reflexivity.
Qed.

(** Splitting the joined lines gives the lines back, when there is at least
    one line and no line holds a line feed. *)
Lemma split_lines_join (ls : list string) :
  ls <> [] -> Forall (fun l => no_newline l = true) ls ->
  split_lines EmptyString (String.concat newline ls) = ls.
Proof.
  induction ls as [|x ls IH]; [done|]. intros _ Hall.
  apply Forall_cons in Hall as [Hx Hls].
  destruct ls as [|y ls].
  - cbn [String.concat]. by rewrite split_lines_no_newline.
  - change (String.concat newline (x :: y :: ls))
      with (x +:+ newline +:+ String.concat newline (y :: ls)).
    rewrite split_lines_app_newline by exact Hx.
    change (EmptyString +:+ x) with x.
    by rewrite IH.
Qed.

(** ** Paragraph formatting *)

Lemma copy_formatting_loop (src : TextFrame) (pre tgt : TextFrame) :
  for_each (zip src (seq (length pre) (length tgt)))
    (fun pr => on_paragraph (snd pr) (modify (copy_paragraph_formatting (fst pr))))
    (pre ++ tgt)
  = (Ok tt, pre ++ zip_with copy_paragraph_formatting src tgt ++ drop (length src) tgt).
Proof.
  revert pre tgt. induction src as [|p src IH]; intros pre tgt.
  - reflexivity.
  - destruct tgt as [|t tgt]; [reflexivity|].
    cbn [length seq zip_with for_each fst snd drop].
    unfold bind at 1. unfold on_paragraph at 1, zoom, modify. cbv beta.
    rewrite list_lookup_middle by reflexivity.
    rewrite insert_app_r_alt by lia. rewrite Nat.sub_diag. cbn [insert list_insert].
    specialize (IH (pre ++ [copy_paragraph_formatting p t]) tgt).
    rewrite length_app in IH. cbn [length] in IH. rewrite Nat.add_1_r in IH.
    rewrite <- !app_assoc in IH. exact IH.
Qed.

Lemma copy_text_formatting_eq (src tgt : TextFrame) :
  copy_text_formatting src tgt
  = (Ok tt, zip_with copy_paragraph_formatting src tgt ++ drop (length src) tgt).
Proof.
  unfold copy_text_formatting. rewrite try_except_swallow. f_equal.
  unfold bind, get. pose proof (copy_formatting_loop src [] tgt) as H.
  cbn [length app] in H. by rewrite H.
Qed.

Lemma copy_paragraph_formatting_keeps src tgt :
  ptext (copy_paragraph_formatting src tgt) = ptext tgt /\
  level (copy_paragraph_formatting src tgt) = level tgt /\
  alignment (copy_paragraph_formatting src tgt) = alignment src.
Proof.
  unfold copy_paragraph_formatting.
  destruct (font_name src) as [n|]; [destruct (truthy n)|];
    (destruct (font_size src) as [z|]; [destruct (decide (z = 0%Z))|]); by cbn.
Qed.

Lemma formatted_lookup (src tgt : TextFrame) i :
  (zip_with copy_paragraph_formatting src tgt ++ drop (length src) tgt) !! i
  = match src !! i, tgt !! i with
    | Some s, Some t => Some (copy_paragraph_formatting s t)
    | _, o => o
    end.
Proof.
  revert tgt i. induction src as [|s src IH]; intros tgt i.
  - rewrite lookup_nil. reflexivity.
  - destruct tgt as [|t tgt].
    + cbn [zip_with drop app]. rewrite lookup_nil. by destruct ((s :: src) !! i).
    + destruct i as [|i]; [reflexivity|]. cbn. apply IH.
Qed.

Lemma formatted_length (src tgt : TextFrame) :
  length (zip_with copy_paragraph_formatting src tgt ++ drop (length src) tgt) = length tgt.
Proof. rewrite length_app, length_zip_with, length_drop. lia. Qed.

Lemma formatted_map {B} (f : Paragraph -> B) (src tgt : TextFrame) :
  (forall s t, f (copy_paragraph_formatting s t) = f t) ->
  map f (zip_with copy_paragraph_formatting src tgt ++ drop (length src) tgt) = map f tgt.
Proof.
  intros Hf. revert tgt. induction src as [|s src IH]; intros tgt; [reflexivity|].
  destruct tgt as [|t tgt]; [reflexivity|]. cbn. by rewrite Hf, IH.
Qed.

(** X1. The loop that empties the working deck returns normally on every
    deck: deleting from the highest position down, no deletion is out of
    range. It leaves no slide and keeps the layouts. *)
Theorem remove_all_slides_empties prs :
  fst (remove_all_slides prs) = Ok tt /\
  slides (snd (remove_all_slides prs)) = [] /\
  slide_layouts (snd (remove_all_slides prs)) = slide_layouts prs.
Proof. rewrite remove_all_slides_eq. by repeat split. Qed.

(** X2. [copy_text_formatting] returns normally and changes neither the
    number of target paragraphs nor their texts nor their levels. A target
    paragraph that has a source paragraph at its position takes that one's
    alignment in every case, its font name when that is a non-empty string
    and its font size when that is not zero; a target paragraph beyond the
    last source paragraph is left as it was. *)
Theorem copy_text_formatting_common_prefix (src tgt : TextFrame) :
  exists tgt',
    copy_text_formatting src tgt = (Ok tt, tgt') /\
    length tgt' = length tgt /\
    map ptext tgt' = map ptext tgt /\ map level tgt' = map level tgt /\
    (forall i s t, src !! i = Some s -> tgt !! i = Some t ->
       exists t', tgt' !! i = Some t' /\
                  alignment t' = alignment s /\
                  font_name t' = match font_name s with
                                 | Some n => if truthy n then Some n else font_name t
                                 | None => font_name t
                                 end /\
                  font_size t' = match font_size s with
                                 | Some z => if decide (z = 0%Z) then font_size t else Some z
                                 | None => font_size t
                                 end) /\
    (forall i, length src <= i -> tgt' !! i = tgt !! i).
Proof.
  eexists. split; [apply copy_text_formatting_eq|].
  split; [apply formatted_length|].
  split; [apply formatted_map; intros s t; apply copy_paragraph_formatting_keeps|].
  split; [apply formatted_map; intros s t; apply copy_paragraph_formatting_keeps|].
  split.
  - intros i s t Hs Ht. rewrite formatted_lookup, Hs, Ht.
    eexists. split; [reflexivity|]. unfold copy_paragraph_formatting.
    destruct (font_name s) as [n|]; [destruct (truthy n)|];
      (destruct (font_size s) as [z|]; [destruct (decide (z = 0%Z))|]); by cbn.
  - intros i Hi. rewrite formatted_lookup.
    by rewrite (proj2 (lookup_ge_None src i) Hi).
Qed.

Lemma copy_text_formatting_common_prefix_witness :
  exists t', snd (copy_text_formatting
                    [mkParagraph "x" 2 (Some ALIGN_CENTER) (Some "Arial") None]
                    [point_paragraph "a"; point_paragraph "b"]) !! 0 = Some t' /\
             alignment t' = Some ALIGN_CENTER.
Proof.
  destruct (copy_text_formatting_common_prefix
              [mkParagraph "x" 2 (Some ALIGN_CENTER) (Some "Arial") None]
              [point_paragraph "a"; point_paragraph "b"])
    as (tgt' & Heq & _ & _ & _ & H & _).
  destruct (H 0 (mkParagraph "x" 2 (Some ALIGN_CENTER) (Some "Arial") None)
              (point_paragraph "a")) as (t' & Ht' & Ha & _); [reflexivity..|].
  exists t'. rewrite Heq. split; [exact Ht' | exact Ha].
Defined.

(** ** Text boxes *)

Lemma copy_text_or_shape_closed src sl :
  copy_text_or_shape src sl
  = (Ok tt,
     set_shapes (shapes sl ++
                 match text_frame src with
                 | Some tf => [mkShape (TextBox (formatted_copy tf)) (left src) (top src)
                                       (width src) (height src) (Some 0%Z)]
                 | None => []
                 end) sl).
Proof.
  unfold copy_text_or_shape. rewrite try_except_swallow. f_equal.
  destruct (text_frame src) as [tf|]; cbn [snd].
  - unfold bind at 1, add_textbox.
    unfold bind. rewrite (on_shape_last _ (shapes sl)). cbv [modify fst snd].
    rewrite (on_shape_last _ (shapes sl)).
    unfold on_text_frame, zoom, set_shape_text, set_text_frame, text_frame, formatted_copy.
    cbn [kind left top width height rotation].
    destruct (copy_text_formatting tf (tf_set_text (tf_get_text tf))) as [r tf'].
    reflexivity.
  - unfold ret. cbn. by rewrite app_nil_r, set_shapes_id.
Qed.

Lemma formatted_copy_eq tf :
  formatted_copy tf
  = zip_with copy_paragraph_formatting tf (tf_set_text (tf_get_text tf))
    ++ drop (length tf) (tf_set_text (tf_get_text tf)).
Proof. unfold formatted_copy. by rewrite copy_text_formatting_eq. Qed.

Lemma tf_set_text_texts s : map ptext (tf_set_text s) = split_lines EmptyString s.
Proof. unfold tf_set_text. rewrite map_map. cbn. apply map_id. Qed.

Lemma tf_get_set_text s : tf_get_text (tf_set_text s) = s.
Proof. unfold tf_get_text. rewrite tf_set_text_texts. apply join_split_lines. Qed.

(** X3. For a source that has a text frame, [copy_text_or_shape] returns
    normally and appends exactly one shape after the shapes of the target,
    a text box at the source's left, top, width and height whose full text
    is the source's full text; for a source without text it changes
    nothing. *)
Theorem copy_text_or_shape_text src sl :
  (forall tf, text_frame src = Some tf ->
     exists box tf',
       copy_text_or_shape src sl = (Ok tt, set_shapes (shapes sl ++ [box]) sl) /\
       kind box = TextBox tf' /\ tf_get_text tf' = tf_get_text tf /\
       left box = left src /\ top box = top src /\
       width box = width src /\ height box = height src) /\
  (text_frame src = None -> copy_text_or_shape src sl = (Ok tt, sl)).
Proof.
  rewrite copy_text_or_shape_closed. split.
  - intros tf ->. eexists. exists (formatted_copy tf). split; [reflexivity|].
    cbn. split; [reflexivity|]. split; [|by repeat split].
    unfold tf_get_text at 1. rewrite formatted_copy_eq.
    rewrite formatted_map by (intros s t; apply copy_paragraph_formatting_keeps).
    rewrite tf_set_text_texts. apply join_split_lines.
  - intros ->. by rewrite app_nil_r, set_shapes_id.
Qed.

Lemma copy_text_or_shape_text_witness :
  exists box tf',
    copy_text_or_shape caption (new_slide_from title_body_layout)
    = (Ok tt, set_shapes (shapes (new_slide_from title_body_layout) ++ [box])
                         (new_slide_from title_body_layout)) /\
    kind box = TextBox tf' /\ tf_get_text tf' = "Confidential".
Proof.
  destruct (copy_text_or_shape_text caption (new_slide_from title_body_layout)) as [H _].
  destruct (H [mkParagraph "Confidential" 0 (Some ALIGN_RIGHT) (Some "Arial") (Some 12%Z)])
    as (box & tf' & Heq & Hk & Ht & _); [reflexivity|].
  exists box, tf'. split; [exact Heq|]. split; [exact Hk | exact Ht].
Defined.

(** X4. When the source's text frame has at least one paragraph and no
    paragraph text holds a line feed, the text box that
    [copy_text_or_shape] appends has one paragraph per source paragraph,
    with the same texts and the same alignments in the same order. *)
Theorem copy_text_or_shape_paragraphs src tf sl :
  text_frame src = Some tf -> tf <> [] ->
  Forall (fun p => no_newline (ptext p) = true) tf ->
  exists box tf',
    copy_text_or_shape src sl = (Ok tt, set_shapes (shapes sl ++ [box]) sl) /\
    kind box = TextBox tf' /\
    map ptext tf' = map ptext tf /\ map alignment tf' = map alignment tf.
Proof.
  intros Htf Hne Hnl. rewrite copy_text_or_shape_closed, Htf.
  eexists. exists (formatted_copy tf). split; [reflexivity|]. split; [reflexivity|].
  assert (map ptext (tf_set_text (tf_get_text tf)) = map ptext tf) as Htexts.
  { rewrite tf_set_text_texts. unfold tf_get_text. apply split_lines_join.
    - destruct tf; [done | discriminate].
    - apply Forall_map. exact Hnl. }
  rewrite formatted_copy_eq. split.
  - rewrite formatted_map by (intros s t; apply copy_paragraph_formatting_keeps).
    exact Htexts.
  - apply list_eq. intros i. rewrite !list_lookup_fmap, formatted_lookup.
    assert (length (tf_set_text (tf_get_text tf)) = length tf) as Hlen.
    { rewrite <- (length_map ptext), Htexts. apply length_map. }
    destruct (tf !! i) as [s|] eqn:Hs.
    + destruct (lookup_lt_is_Some_2 (tf_set_text (tf_get_text tf)) i) as [t Ht].
      { rewrite Hlen. by eapply lookup_lt_Some. }
      rewrite Ht. cbn. f_equal. apply copy_paragraph_formatting_keeps.
    + apply lookup_ge_None in Hs.
      rewrite (proj2 (lookup_ge_None (tf_set_text (tf_get_text tf)) i)) by lia.
      reflexivity.
Qed.

Lemma copy_text_or_shape_paragraphs_witness :
  exists box tf',
    copy_text_or_shape caption (new_slide_from title_body_layout)
    = (Ok tt, set_shapes (shapes (new_slide_from title_body_layout) ++ [box])
                         (new_slide_from title_body_layout)) /\
    kind box = TextBox tf' /\
    map ptext tf' = ["Confidential"] /\ map alignment tf' = [Some ALIGN_RIGHT].
Proof.
  apply (copy_text_or_shape_paragraphs caption
           [mkParagraph "Confidential" 0 (Some ALIGN_RIGHT) (Some "Arial") (Some 12%Z)]).
  - reflexivity.
  - discriminate.
  - repeat constructor.
Defined.

(** ** What replication adds *)

Lemma copied_shapes_copyable env src :
  length (copied_shapes env src) = (if copyable env src then 1 else 0) /\
  Forall (fun s => is_picture_or_textbox s = true) (copied_shapes env src).
Proof.
  unfold copied_shapes, copyable, shape_type, image_blob, text_frame.
  destruct (kind src) as [ty i tf|[b|]|tf|tf|[[]|]]; cbn;
    try (by split; [reflexivity | constructor]);
    try (by split; [reflexivity | repeat constructor]).
  destruct (accepts_image env b); split; try reflexivity; repeat constructor.
Qed.

Lemma copyable_not_placeholder env src :
  copyable env src = true -> is_placeholder src = false.
Proof. unfold copyable, is_placeholder. by destruct (kind src). Qed.

Lemma copied_concat_length env (shs : list Shape) :
  length (concat (map (copied_shapes env)
                      (filter (fun shape => is_placeholder shape = false) shs)))
  = length (List.filter (copyable env) shs).
Proof.
  induction shs as [|s shs IH]; [reflexivity|].
  rewrite filter_cons. cbn [List.filter].
  destruct (decide (is_placeholder s = false)) as [Hnp|Hp].
  - cbn [map concat]. rewrite length_app, IH.
    rewrite (proj1 (copied_shapes_copyable env s)).
    by destruct (copyable env s).
  - rewrite IH. destruct (copyable env s) eqn:Hc; [|reflexivity].
    apply copyable_not_placeholder in Hc. congruence.
Qed.

(** X5. Replication adds exactly one shape for each exemplar shape that is
    a picture with readable, accepted image bytes, a text box, or an auto
    shape, whatever its text and also when its text is empty, and nothing
    for any other shape (placeholders, graphic frames, groups, connectors).
    Every shape it adds is a picture or a text box: an auto shape is
    replicated as a text box. *)
Theorem replication_adds_pictures_and_text_boxes env ts target :
  exists added,
    copy_template_visual_elements env ts target
    = (Ok tt, set_shapes (shapes target ++ added) target) /\
    length added = length (List.filter (copyable env) (shapes ts)) /\
    Forall (fun s => is_picture_or_textbox s = true) added /\
    (forall src sl,
       length (shapes (snd (copy_shape_to_slide env src sl)))
       = length (shapes sl) + (if copyable env src then 1 else 0)).
Proof.
  eexists. split; [apply copy_template_visual_elements_eq|].
  split; [apply copied_concat_length|]. split.
  - apply Forall_concat, Forall_map, Forall_forall. intros src _.
    apply copied_shapes_copyable.
  - intros src sl. rewrite copy_shape_to_slide_eq. cbn [snd shapes set_shapes].
    rewrite length_app. by rewrite (proj1 (copied_shapes_copyable env src)).
Qed.

(** An auto shape whose text is empty is replicated all the same, as a text
    box with one empty paragraph at the auto shape's place. *)
Example empty_auto_shape_replicated :
  map kind (shapes (snd (copy_shape_to_slide sample_env
                           (mkShape (AutoShape [empty_paragraph]) 5 6 7 8 (Some 0%Z))
                           (mkSlide [] title_body_layout))))
  = [TextBox [empty_paragraph]].
Proof. vm_compute. reflexivity. Qed.

(** ** What population leaves alone *)

Lemma set_text_frame_keeps tf s :
  placeholder_slot (set_text_frame tf s) = placeholder_slot s /\
  left (set_text_frame tf s) = left s /\ top (set_text_frame tf s) = top s /\
  width (set_text_frame tf s) = width s /\ height (set_text_frame tf s) = height s /\
  rotation (set_text_frame tf s) = rotation s.
Proof.
  unfold placeholder_slot, set_text_frame. cbn.
  by destruct (kind s) as [? ? []| | | |].
Qed.

Lemma same_but_text_keeps s s' :
  same_but_text s s' ->
  placeholder_slot s' = placeholder_slot s /\
  left s' = left s /\ top s' = top s /\ width s' = width s /\ height s' = height s /\
  rotation s' = rotation s.
Proof.
  intros [->|[tf ->]]; [by repeat split | apply set_text_frame_keeps].
Qed.

Lemma populated_lookup content sl k s :
  shapes sl !! k = Some s ->
  exists s', shapes (populated content sl) !! k = Some s' /\
             placeholder_slot s' = placeholder_slot s /\
             left s' = left s /\ top s' = top s /\
             width s' = width s /\ height s' = height s /\ rotation s' = rotation s /\
             (last_index is_title_ph 0 (shapes sl) None <> Some k ->
              last_index is_content_ph 0 (shapes sl) None <> Some k -> s' = s).
Proof.
  intros Hk. unfold populated. cbn [shapes set_shapes].
  set (ti := last_index is_title_ph 0 (shapes sl) None).
  set (ci := last_index is_content_ph 0 (shapes sl) None).
  set (shs1 := match ti with
               | Some i => if truthy (get_title content)
                           then alter (set_shape_text (get_title content)) i (shapes sl)
                           else shapes sl
               | None => shapes sl
               end).
  assert (exists s1, shs1 !! k = Some s1 /\ same_but_text s s1 /\ (ti <> Some k -> s1 = s))
    as (s1 & Hs1 & Hsame1 & Hun1).
  { unfold shs1.
    destruct ti as [i|]; [|exists s; split; [exact Hk|split; [by left|done]]].
    destruct (truthy (get_title content));
      [|exists s; split; [exact Hk|split; [by left|done]]].
    rewrite list_lookup_alter. destruct (decide (i = k)) as [->|Hne].
    - rewrite Hk. cbn. eexists. split; [reflexivity|]. split; [right; eauto|].
      intros H. by destruct H.
    - exists s. split; [exact Hk|]. split; [by left|done]. }
  assert (exists s2,
            match ci, get_points content with
            | Some j, _ :: _ => alter (fill_shape (get_points content)) j shs1
            | _, _ => shs1
            end !! k = Some s2 /\ same_but_text s1 s2 /\ (ci <> Some k -> s2 = s1))
    as (s2 & Hs2 & Hsame2 & Hun2).
  { destruct ci as [j|]; [|exists s1; split; [exact Hs1|split; [by left|done]]].
    destruct (get_points content) as [|p0 rest];
      [exists s1; split; [exact Hs1|split; [by left|done]]|].
    rewrite list_lookup_alter. destruct (decide (j = k)) as [->|Hne].
    - rewrite Hs1. cbn. eexists. split; [reflexivity|]. split; [right; eauto|].
      intros H. by destruct H.
    - exists s1. split; [exact Hs1|]. split; [by left|done]. }
  exists s2. split; [exact Hs2|].
  destruct (same_but_text_keeps _ _ Hsame1) as (A1 & B1 & C1 & D1 & E1 & F1).
  destruct (same_but_text_keeps _ _ Hsame2) as (A2 & B2 & C2 & D2 & E2 & F2).
  repeat split; try congruence.
  intros Ht Hc. rewrite (Hun2 Hc). exact (Hun1 Ht).
Qed.

Lemma populated_length content sl :
  length (shapes (populated content sl)) = length (shapes sl).
Proof.
  unfold populated. cbn [shapes set_shapes].
  destruct (last_index is_title_ph 0 (shapes sl) None) as [i|];
    destruct (last_index is_content_ph 0 (shapes sl) None) as [j|];
    destruct (truthy (get_title content)); destruct (get_points content);
    by rewrite ?length_alter.
Qed.

Lemma populate_slide_content_raise content sl :
  content_frame_ok content sl = false ->
  populate_slide_content content sl = (Raise AttributeError, title_written content sl).
Proof.
  unfold content_frame_ok, title_written, populate_slide_content.
  unfold bind at 1, get. rewrite scan_placeholders_eq. cbn [fst snd].
  destruct (last_index is_content_ph 0 (shapes sl) None) as [j|] eqn:Hj; [|discriminate].
  destruct (get_points content) as [|p0 rest]; [discriminate|].
  destruct (last_index_Some _ _ _ Hj) as (sc & Hsc & Psc & _). rewrite Hsc.
  intros Hnf.
  assert (forall sl1, shapes sl1 !! j = Some sc ->
            on_shape j (on_text_frame (modify tf_clear ;; fill_points (p0 :: rest))) sl1
            = (Raise AttributeError, sl1)) as Hraise.
  { intros sl1 H1. unfold on_shape, zoom at 1. rewrite H1.
    unfold on_text_frame, zoom. unfold has_text_frame in Hnf.
    destruct (text_frame sc); [discriminate|].
    rewrite list_insert_id by exact H1. by rewrite set_shapes_id. }
  destruct (last_index is_title_ph 0 (shapes sl) None) as [i|] eqn:Hi.
  - destruct (last_index_Some _ _ _ Hi) as (st & Hst & Pst & _).
    destruct (truthy (get_title content)).
    + rewrite (bind_eq _ _ _ _ _ (on_shape_modify _ _ _ _ Hst)).
      apply Hraise. cbn [shapes set_shapes].
      rewrite list_lookup_alter_ne; [exact Hsc|].
      intros ->. rewrite Hsc in Hst. injection Hst as ->.
      exact (title_not_content _ Pst Psc).
    + unfold bind at 1, ret. by apply Hraise.
  - unfold bind at 1, ret. by apply Hraise.
Qed.

(** X6. When the body or object placeholder on which the scan ends has a
    text frame, or there are no points to write, [populate_slide_content]
    returns normally and keeps the slide's layout and its number of shapes;
    every shape keeps its position, its geometry and rotation and, for a
    placeholder, its type and index; a shape other than the two the scan
    ended on is not changed at all, so no shape that is not a placeholder is
    ever changed. When that placeholder has no text frame (it holds a table,
    a chart or a picture) and there are points, the call raises
    [AttributeError]; the title may have been written by then, and every
    shape other than the title placeholder the scan ended on is as it
    was. *)
Theorem populate_changes_text_only content sl :
  (content_frame_ok content sl = true ->
   exists sl',
     populate_slide_content content sl = (Ok tt, sl') /\
     slide_layout sl' = slide_layout sl /\
     length (shapes sl') = length (shapes sl) /\
     (forall k s, shapes sl !! k = Some s ->
        exists s', shapes sl' !! k = Some s' /\
                   placeholder_slot s' = placeholder_slot s /\
                   left s' = left s /\ top s' = top s /\
                   width s' = width s /\ height s' = height s /\
                   rotation s' = rotation s /\
                   (fst (scan_placeholders 0 (shapes sl) (None, None)) <> Some k ->
                    snd (scan_placeholders 0 (shapes sl) (None, None)) <> Some k ->
                    s' = s) /\
                   (is_placeholder s = false -> s' = s))) /\
  (content_frame_ok content sl = false ->
   exists sl',
     populate_slide_content content sl = (Raise AttributeError, sl') /\
     slide_layout sl' = slide_layout sl /\
     length (shapes sl') = length (shapes sl) /\
     (forall k s, shapes sl !! k = Some s ->
        fst (scan_placeholders 0 (shapes sl) (None, None)) <> Some k ->
        shapes sl' !! k = Some s)).
Proof.
  split.
  - intros Hok.
    exists (populated content sl). split; [by apply populate_slide_content_eq|].
    split; [reflexivity|]. split; [apply populated_length|].
    intros k s Hk. rewrite scan_selects_last. cbn [fst snd].
    destruct (populated_lookup content sl k s Hk)
      as (s' & Hs' & A & B & C & D & E & F & Hun).
    exists s'. repeat split; try assumption.
    intros Hnp. apply Hun.
    + intros Hi. destruct (last_index_Some _ _ _ Hi) as (x & Hx & Px & _).
      rewrite Hk in Hx. injection Hx as <-. apply title_is_placeholder in Px. congruence.
    + intros Hi. destruct (last_index_Some _ _ _ Hi) as (x & Hx & Px & _).
      rewrite Hk in Hx. injection Hx as <-. apply content_is_placeholder in Px. congruence.
  - intros Hnok.
    exists (title_written content sl). split; [by apply populate_slide_content_raise|].
    unfold title_written.
    destruct (fst (scan_placeholders 0 (shapes sl) (None, None))) as [i|];
      [|by repeat split].
    destruct (truthy (get_title content)); [|by repeat split].
    cbn [shapes set_shapes slide_layout]. split; [reflexivity|].
    split; [apply length_alter|].
    intros k s Hk Hne. rewrite list_lookup_alter_ne; [exact Hk|congruence].
Qed.

Lemma populate_changes_text_only_witness :
  (exists s', shapes (snd (populate_slide_content intro_item branded_slide)) !! 3 = Some s' /\
              s' = logo) /\
  fst (populate_slide_content intro_item
         (mkSlide [ph TITLE 0;
                   mkShape (Placeholder OBJECT 1 None) 0 0 0 0 (Some 0%Z)]
                  title_object_layout))
  = Raise AttributeError.
Proof.
  split.
  - destruct (populate_changes_text_only intro_item branded_slide) as [H _].
    destruct H as (sl' & Heq & _ & _ & H); [reflexivity|].
    destruct (H 3 logo) as (s' & Hs' & _ & _ & _ & _ & _ & _ & _ & Hnp); [reflexivity|].
    exists s'. rewrite Heq. split; [exact Hs' | apply Hnp; reflexivity].
  - destruct (populate_changes_text_only intro_item
                (mkSlide [ph TITLE 0;
                          mkShape (Placeholder OBJECT 1 None) 0 0 0 0 (Some 0%Z)]
                         title_object_layout)) as [_ H].
    destruct H as (sl' & Heq & _); [reflexivity|].
    rewrite Heq. reflexivity.
Defined.

(** X7. [populate_slide_content] leaves the slide exactly as it was when
    there is nothing to write: the title is missing or empty or the slide
    has no title placeholder, and the points are missing or empty or the
    slide has no body or object placeholder. *)
Theorem populate_nothing_to_write content sl :
  get_title content = EmptyString \/ existsb is_title_ph (shapes sl) = false ->
  get_points content = [] \/ existsb is_content_ph (shapes sl) = false ->
  populate_slide_content content sl = (Ok tt, sl).
Proof.
  intros Ht Hp. rewrite populate_slide_content_eq.
  2: { unfold content_frame_ok. rewrite scan_selects_last. cbn [snd].
       destruct Hp as [Hp|Hp].
       - rewrite Hp. by destruct (last_index _ _ _ _).
       - by rewrite (proj2 (last_index_None _ _) Hp). }
  f_equal.
  unfold populated.
  assert (match last_index is_title_ph 0 (shapes sl) None with
          | Some i => if truthy (get_title content)
                      then alter (set_shape_text (get_title content)) i (shapes sl)
                      else shapes sl
          | None => shapes sl
          end = shapes sl) as ->.
  { destruct Ht as [Ht|Ht].
    - rewrite Ht. cbn. by destruct (last_index _ _ _ _).
    - by rewrite (proj2 (last_index_None _ _) Ht). }
  destruct Hp as [Hp|Hp].
  - rewrite Hp. destruct (last_index _ _ _ _); apply set_shapes_id.
  - rewrite (proj2 (last_index_None _ _) Hp). apply set_shapes_id.
Qed.

Lemma populate_nothing_to_write_witness :
  populate_slide_content intro_item cover_slide = (Ok tt, cover_slide) /\
  populate_slide_content (mkItem None None) branded_slide = (Ok tt, branded_slide).
Proof.
  split.
  - apply populate_nothing_to_write; right; reflexivity.
  - apply populate_nothing_to_write; left; reflexivity.
Defined.

(** X8. When the slide has a title placeholder, title placeholders have
    text frames, the points can be written, and the item's title is not
    empty and holds no control character besides line feed and horizontal
    tab, the title placeholder the scan ended on holds, after population, a
    text frame whose full text is the title, character for character. *)
Theorem populate_title_verbatim content sl :
  existsb is_title_ph (shapes sl) = true ->
  Forall (fun s => is_title_ph s = true -> has_text_frame s = true) (shapes sl) ->
  content_frame_ok content sl = true ->
  truthy (get_title content) = true -> plain_text (get_title content) = true ->
  exists j s' tf,
    fst (scan_placeholders 0 (shapes sl) (None, None)) = Some j /\
    populate_slide_content content sl = (Ok tt, snd (populate_slide_content content sl)) /\
    shapes (snd (populate_slide_content content sl)) !! j = Some s' /\
    is_title_ph s' = true /\ text_frame s' = Some tf /\
    tf_get_text tf = get_title content.
Proof.
  intros Hex Hframes Hok Htitle _.
  rewrite scan_selects_last, populate_slide_content_eq by exact Hok. cbn [fst snd].
  destruct (last_index is_title_ph 0 (shapes sl) None) as [i|] eqn:Hi.
  2: { apply last_index_None in Hi. congruence. }
  destruct (last_index_Some _ _ _ Hi) as (st & Hst & Pst & _).
  assert (has_text_frame st = true) as Hst_tf.
  { rewrite Forall_forall in Hframes. apply Hframes; [|exact Pst].
    apply list_elem_of_lookup. eauto. }
  exists i, (set_shape_text (get_title content) st), (tf_set_text (get_title content)).
  split; [reflexivity|]. split; [reflexivity|]. split.
  - unfold populated. rewrite Hi, Htitle. cbn [shapes set_shapes].
    assert (alter (set_shape_text (get_title content)) i (shapes sl) !! i
            = Some (set_shape_text (get_title content) st)) as Hlook.
    { rewrite list_lookup_alter. destruct (decide (i = i)); [by rewrite Hst|done]. }
    destruct (last_index is_content_ph 0 (shapes sl) None) as [j|] eqn:Hj; [|exact Hlook].
    destruct (get_points content); [exact Hlook|].
    rewrite list_lookup_alter_ne; [exact Hlook|].
    intros ->. destruct (last_index_Some _ _ _ Hj) as (sc & Hsc & Psc & _).
    rewrite Hsc in Hst. injection Hst as ->. exact (title_not_content _ Pst Psc).
  - unfold is_title_ph, has_text_frame in *.
    unfold set_shape_text, set_text_frame, text_frame in *. cbn [kind] in *.
    destruct (kind st) as [[] ? []| | | |]; try discriminate.
    split; [reflexivity|]. split; [reflexivity|]. apply tf_get_set_text.
Qed.

Lemma populate_title_verbatim_witness :
  exists j s' tf,
    fst (scan_placeholders 0 (shapes branded_slide) (None, None)) = Some j /\
    populate_slide_content intro_item branded_slide
    = (Ok tt, snd (populate_slide_content intro_item branded_slide)) /\
    shapes (snd (populate_slide_content intro_item branded_slide)) !! j = Some s' /\
    is_title_ph s' = true /\ text_frame s' = Some tf /\ tf_get_text tf = "Intro".
Proof.
  apply (populate_title_verbatim intro_item branded_slide); try reflexivity.
  repeat (apply Forall_cons_2; [done|]). apply Forall_nil_2.
Defined.

(** ** Replication and population together *)

Lemma last_index_app_none {A} (P : A -> bool) (l a : list A) :
  Forall (fun x => P x = false) a ->
  last_index P 0 (l ++ a) None = last_index P 0 l None.
Proof.
  induction a as [|x a IH] using rev_ind; intros H; [by rewrite app_nil_r|].
  rewrite Forall_app, Forall_singleton in H. destruct H as [Ha Hx].
  rewrite List.app_assoc, last_index_snoc, Hx. by apply IH.
Qed.

Lemma last_index_lt {A} (P : A -> bool) (l : list A) i :
  last_index P 0 l None = Some i -> i < length l.
Proof.
  intros H. destruct (last_index_Some _ _ _ H) as (x & Hx & _).
  by eapply lookup_lt_Some.
Qed.

Lemma populated_app content sl added :
  Forall (fun s => is_placeholder s = false) added ->
  shapes (populated content (set_shapes (shapes sl ++ added) sl))
  = shapes (populated content sl) ++ added.
Proof.
  intros Hadd. unfold populated. cbn [shapes set_shapes].
  rewrite !last_index_app_none
    by (eapply Forall_impl; [exact Hadd|]; intros x Hx;
        unfold is_title_ph, is_content_ph; unfold is_placeholder in Hx;
        by destruct (kind x) as [[] ? ?| | | |]).
  destruct (last_index is_title_ph 0 (shapes sl) None) as [i|] eqn:Hi;
    destruct (last_index is_content_ph 0 (shapes sl) None) as [j|] eqn:Hj;
    destruct (truthy (get_title content)); destruct (get_points content) as [|p0 rest];
    try reflexivity;
    repeat (rewrite alter_app_l;
            [|rewrite ?length_alter; eauto using last_index_lt]);
    reflexivity.
Qed.

(** X9. [duplicate_slide_with_content] returns normally, appends exactly one
    slide after the slides the deck had and returns its position. With an
    exemplar the new slide is the slide built without one followed by the
    replicated shapes: population writes the same placeholders whether or
    not shapes were replicated before it, and no replicated shape receives
    text of the item. *)
Theorem replication_commutes_with_population env layout ex content prs :
  exists plain added,
    duplicate_slide_with_content env layout None content prs
    = (Ok (length (slides prs)), set_slides (slides prs ++ [plain]) prs) /\
    plain = snd (populate_slide_content content (new_slide_from layout)) /\
    shapes (snd (copy_template_visual_elements env ex (new_slide_from layout)))
    = shapes (new_slide_from layout) ++ added /\
    duplicate_slide_with_content env layout (Some ex) content prs
    = (Ok (length (slides prs)),
       set_slides (slides prs ++ [set_shapes (shapes plain ++ added) plain]) prs).
Proof.
  exists (populated content (new_slide_from layout)).
  exists (concat (map (copied_shapes env)
                      (filter (fun shape => is_placeholder shape = false) (shapes ex)))).
  split; [apply duplicate_slide_with_content_eq|].
  split; [by rewrite populate_slide_content_eq by apply content_frame_ok_fresh|].
  split; [by rewrite copy_template_visual_elements_eq|].
  rewrite duplicate_slide_with_content_eq. do 3 f_equal.
  unfold built_slide.
  set (added := concat (map (copied_shapes env) _)).
  assert (Forall (fun s => is_placeholder s = false) added) as Hadd.
  { apply Forall_concat, Forall_map, Forall_forall. intros src _.
    apply copied_shapes_not_placeholder. }
  pose proof (populated_app content (new_slide_from layout) added Hadd) as H.
  destruct (populated content (set_shapes (shapes (new_slide_from layout) ++ added)
                                          (new_slide_from layout))) as [shs lay] eqn:E.
  cbn [shapes] in H. subst shs.
  unfold set_shapes. f_equal.
  assert (lay = slide_layout (populated content
                                (set_shapes (shapes (new_slide_from layout) ++ added)
                                            (new_slide_from layout)))) as ->
    by (by rewrite E).
  reflexivity.
Qed.

(** ** The plain builder's slide *)

Lemma list_find_alter_fst {A} (P : A -> Prop) `{forall x, Decision (P x)}
    (f : A -> A) (l : list A) i :
  (forall x, P (f x) <-> P x) ->
  fst <$> list_find P (alter f i l) = fst <$> list_find P l.
Proof.
  intros Hf. revert i. induction l as [|x l IH]; intros i; [reflexivity|].
  destruct i as [|i]; cbn [alter list_alter list_find].
  - destruct (decide (P (f x))) as [Hy|Hn]; destruct (decide (P x)) as [Hy'|Hn'];
      try reflexivity; exfalso; [apply Hn', Hf, Hy | apply Hn, Hf, Hy'].
  - destruct (decide (P x)); [reflexivity|].
    specialize (IH i).
    destruct (list_find P (alter f i l)) as [[a b]|];
      destruct (list_find P l) as [[a' b']|]; cbn in *; congruence.
Qed.

Lemma is_body_set_text_frame tf s : is_body_ph (set_text_frame tf s) = is_body_ph s.
Proof.
  unfold is_body_ph, set_text_frame. cbn [kind]. by destruct (kind s) as [[] ? []| | | |].
Qed.

Lemma body_is_content s : is_body_ph s = true -> is_content_ph s = true.
Proof. unfold is_body_ph, is_content_ph. by destruct (kind s) as [[] ? ?| | | |]. Qed.

Lemma placeholder_slot_instantiate lp :
  placeholder_slot (instantiate lp) = Some (lph_type lp, lph_idx lp).
Proof. reflexivity. Qed.

Lemma filled_frame_texts_any points tf :
  map ptext (filled_frame points tf)
  = match points with [] => [EmptyString] | _ :: _ => points end.
Proof.
  destruct points as [|p0 rest]; [|apply filled_frame_texts].
  unfold filled_frame. by destruct tf.
Qed.

(** X10. For a layout whose placeholders are listed by increasing index and
    an item whose points hold plain characters only, the plain builder's
    loop body returns normally and appends one slide made from the layout:
    one placeholder per placeholder of the layout, with the same types and
    indices in the same order. The first body placeholder of that slide ends
    with the item's points as its paragraph texts, or with a single empty
    paragraph when the item has no points. Every shape other than that one
    and the placeholder of index 0, which takes the title, is as the layout
    gave it: on a slide without body placeholder no shape gets the
    points. *)
Theorem basic_slide_fills_first_body layout content prs :
  idx_increasing (layout_placeholders layout) = true ->
  Forall (fun p => plain_line p = true) (get_points content) ->
  exists sl,
    basic_slide layout content prs = (Ok tt, set_slides (slides prs ++ [sl]) prs) /\
    slide_layout sl = layout /\
    map placeholder_slot (shapes sl)
    = map (fun lp => Some (lph_type lp, lph_idx lp)) (layout_placeholders layout) /\
    match list_find (fun s => is_body_ph s = true) (shapes (new_slide_from layout)) with
    | Some (k, _) =>
        (exists s', shapes sl !! k = Some s' /\ is_body_ph s' = true /\
                    paragraph_texts s'
                    = match get_points content with
                      | [] => [EmptyString]
                      | _ :: _ => get_points content
                      end) /\
        (forall j s, j <> k -> shapes_title (new_slide_from layout) <> Some j ->
           shapes sl !! j = Some s -> shapes (new_slide_from layout) !! j = Some s)
    | None =>
        forall j s, shapes_title (new_slide_from layout) <> Some j ->
          shapes sl !! j = Some s -> shapes (new_slide_from layout) !! j = Some s
    end.
Proof.
  intros _ _.
  exists (basic_built layout content). split; [apply basic_slide_eq|].
  split; [reflexivity|].
  unfold basic_built. cbn [shapes set_shapes].
  set (fresh := new_slide_from layout).
  set (shs1 := match shapes_title fresh with
               | Some t => alter (set_shape_text (get_title content)) t (shapes fresh)
               | None => shapes fresh
               end).
  assert (forall k s1, shs1 !! k = Some s1 ->
            exists s0, shapes fresh !! k = Some s0 /\ same_but_text s0 s1 /\
                       (shapes_title fresh <> Some k -> s1 = s0)) as Hshs1.
  { intros k s1. unfold shs1. destruct (shapes_title fresh) as [t|].
    - rewrite list_lookup_alter. destruct (decide (t = k)) as [->|Hne].
      + destruct (shapes fresh !! k) as [s0|]; [|discriminate]. cbn.
        intros [= <-]. exists s0. split; [reflexivity|]. split; [right; eauto|].
        intros H. by destruct H.
      + intros Hk. exists s1. split; [exact Hk|]. split; [by left | done].
    - intros Hk. exists s1. split; [exact Hk|]. split; [by left | done]. }
  assert (length shs1 = length (shapes fresh)) as Hlen1.
  { unfold shs1. destruct (shapes_title fresh); by rewrite ?length_alter. }
  assert (fst <$> list_find (fun s => is_body_ph s = true) shs1
          = fst <$> list_find (fun s => is_body_ph s = true) (shapes fresh)) as Hfind.
  { unfold shs1. destruct (shapes_title fresh) as [t|]; [|reflexivity].
    apply list_find_alter_fst. intros x. unfold set_shape_text.
    by rewrite is_body_set_text_frame. }
  assert (forall k s2, match list_find (fun s => is_body_ph s = true) shs1 with
                       | Some (k0, _) => alter (fill_shape (get_points content)) k0 shs1
                       | None => shs1
                       end !! k = Some s2 ->
                       exists s1, shs1 !! k = Some s1 /\ same_but_text s1 s2 /\
                                  (fst <$> list_find (fun s => is_body_ph s = true) shs1
                                   <> Some k -> s2 = s1)) as Hshs2.
  { intros k s2. destruct (list_find _ shs1) as [[k0 x]|].
    - rewrite list_lookup_alter. destruct (decide (k0 = k)) as [->|Hne].
      + destruct (shs1 !! k) as [s1|]; [|discriminate]. cbn.
        intros [= <-]. exists s1. split; [reflexivity|]. split; [right; eauto|].
        intros H. by destruct H.
      + intros Hk. exists s2. split; [exact Hk|]. split; [by left | done].
    - intros Hk. exists s2. split; [exact Hk|]. split; [by left | done]. }
  assert (forall j s, fst <$> list_find (fun s => is_body_ph s = true) shs1 <> Some j ->
            shapes_title fresh <> Some j ->
            match list_find (fun s => is_body_ph s = true) shs1 with
            | Some (k0, _) => alter (fill_shape (get_points content)) k0 shs1
            | None => shs1
            end !! j = Some s -> shapes fresh !! j = Some s) as Hkeep.
  { intros j s Hnk Hnt Hj.
    destruct (Hshs2 j s Hj) as (s1 & Hk1 & _ & Hun2).
    destruct (Hshs1 j s1 Hk1) as (s0 & Hk0 & _ & Hun1).
    rewrite (Hun2 Hnk), (Hun1 Hnt). exact Hk0. }
  split.
  - (* types and indices *)
    apply list_eq. intros k. rewrite !list_lookup_fmap.
    destruct (_ !! k) as [s2|] eqn:Hk2 at 1.
    + destruct (Hshs2 k s2 Hk2) as (s1 & Hk1 & Hs12 & _).
      destruct (Hshs1 k s1 Hk1) as (s0 & Hk0 & Hs01 & _).
      unfold fresh, new_slide_from in Hk0. cbn [shapes] in Hk0.
      change (map instantiate (layout_placeholders layout))
        with (instantiate <$> layout_placeholders layout) in Hk0.
      rewrite list_lookup_fmap in Hk0.
      destruct (layout_placeholders layout !! k) as [lp|]; [|discriminate].
      cbn in Hk0. injection Hk0 as <-. cbn.
      rewrite (proj1 (same_but_text_keeps _ _ Hs12)).
      by rewrite (proj1 (same_but_text_keeps _ _ Hs01)).
    + apply lookup_ge_None in Hk2.
      assert (length (layout_placeholders layout) <= k) as Hge.
      { revert Hk2. destruct (list_find _ shs1) as [[k0 x]|];
          rewrite ?length_alter, Hlen1; unfold fresh, new_slide_from; cbn [shapes];
          by rewrite length_map. }
      by rewrite (proj2 (lookup_ge_None _ _) Hge).
  - destruct (list_find (fun s => is_body_ph s = true) (shapes fresh)) as [[k x]|] eqn:Hf0.
    + destruct (list_find (fun s => is_body_ph s = true) shs1) as [[k1 y]|] eqn:Hf1;
        [|discriminate].
      cbn in Hfind. injection Hfind as ->.
      split.
      * apply list_find_Some in Hf1 as (Hy & Py & _).
        assert (has_text_frame y = true) as Hy_tf.
        { destruct (Hshs1 k y Hy) as (s0 & Hk0 & Hs0y & _).
          destruct (fresh_lookup layout k s0 Hk0) as [lp ->].
          destruct Hs0y as [->|[tf ->]]; [reflexivity|].
          by rewrite has_text_frame_set_text_frame. }
        destruct (fill_shape_content (get_points content) y (body_is_content _ Py) Hy_tf)
          as [_ Htf].
        exists (fill_shape (get_points content) y). split.
        -- rewrite list_lookup_alter. destruct (decide (k = k)); [by rewrite Hy|done].
        -- split; [unfold fill_shape; by rewrite is_body_set_text_frame|].
           unfold paragraph_texts. rewrite Htf. apply filled_frame_texts_any.
      * intros j s Hjk Hnt Hj. apply (Hkeep j s); [|exact Hnt|exact Hj].
        cbn. congruence.
    + destruct (list_find (fun s => is_body_ph s = true) shs1) as [[k1 y]|] eqn:Hf1;
        [discriminate|].
      intros j s Hnt Hj. apply (Hkeep j s); [discriminate|exact Hnt|exact Hj].
Qed.

Lemma basic_slide_fills_first_body_witness :
  exists sl,
    basic_slide title_body_layout intro_item (mkPresentation [] [title_body_layout])
    = (Ok tt, mkPresentation [sl] [title_body_layout]) /\
    map paragraph_texts (shapes sl) = [["Intro"]; ["a"; "b"; "c"]].
Proof.
  destruct (basic_slide_fills_first_body title_body_layout intro_item
              (mkPresentation [] [title_body_layout]))
    as (sl & Heq & _); [reflexivity | repeat constructor |].
  exists sl. split; [exact Heq|].
  assert (Some sl = Some (basic_built title_body_layout intro_item)) as [= ->];
    [|reflexivity].
  rewrite basic_slide_eq in Heq. by injection Heq as <-.
Defined.

(** ** A whole run and the file system *)

Lemma create_basic_presentation_Raise env items out fs e fs' :
  create_basic_presentation env items out fs = (Raise e, fs') -> fs' = fs.
Proof.
  rewrite create_basic_presentation_eq. intros H.
  by apply save_outcome_Raise in H as [-> _].
Qed.

(** X11. A run writes at most one file, the one at the output path: a run
    that raises leaves the file system as it was, and a run that returns
    has changed nothing but the entry of the output path, which then holds a
    deck. In particular the template file keeps its content unless it is
    itself the output path. *)
Theorem run_writes_only_output env items out tpl fs r fs' :
  create_ppt_from_template env items out tpl fs = (r, fs') ->
  (forall q, q <> out -> fs' !! q = fs !! q) /\
  (forall e, r = Raise e -> fs' = fs) /\
  (forall x, r = Ok x -> x = out /\ exists d, fs' = <[out := Deck d]> fs).
Proof.
  intros Hrun.
  assert ((exists e, r = Raise e /\ fs' = fs) \/
          (r = Ok out /\ exists d, fs' = <[out := Deck d]> fs)) as Hcases.
  { destruct r as [x|e].
    - right. apply run_result in Hrun as (-> & _ & d & -> & _). eauto.
    - left. exists e. split; [reflexivity|].
      destruct (create_ppt_from_template_cases env items out tpl fs)
        as [(p & t & d & _ & _ & _ & _ & Heq)|Heq]; rewrite Heq in Hrun.
      + discriminate.
      + by apply create_basic_presentation_Raise in Hrun. }
  destruct Hcases as [(e & -> & ->)|(-> & d & ->)].
  - split; [done|]. split; [done|]. discriminate.
  - split; [intros q Hq; by rewrite lookup_insert_ne|].
    split; [discriminate|]. intros x [= <-]. eauto.
Qed.

Lemma run_writes_only_output_witness :
  snd (create_ppt_from_template sample_env sample_items "out.pptx" (Some "brand.pptx")
         sample_fs) !! "brand.pptx" = Some (Deck branded_deck).
Proof.
  destruct (run_writes_only_output sample_env sample_items "out.pptx" (Some "brand.pptx")
              sample_fs
              (fst (create_ppt_from_template sample_env sample_items "out.pptx"
                      (Some "brand.pptx") sample_fs))
              (snd (create_ppt_from_template sample_env sample_items "out.pptx"
                      (Some "brand.pptx") sample_fs))) as (H & _).
  - vm_compute. reflexivity.
  - rewrite (H "brand.pptx"); [vm_compute; reflexivity | discriminate].
Defined.

Lemma template_usable_spec env items tpl fs :
  template_usable tpl fs = true <->
  exists p t d, tpl = Some p /\ truthy p = true /\ fs !! p = Some (Deck t) /\
                template_deck env items t = Ok d.
Proof.
  unfold template_usable, template_deck, template_layout, getitem. split.
  - destruct tpl as [p|]; [|discriminate].
    destruct (truthy p) eqn:Ht; [|discriminate]. cbn [andb].
    destruct (fs !! p) as [[|t]|] eqn:Hp; try discriminate.
    destruct (find_best_content_slide t) as [ex|] eqn:Hb; intros H.
    + exists p, t. eexists. split; [reflexivity|]. split; [exact Ht|].
      split; [exact Hp | rewrite Hb; reflexivity].
    + apply bool_decide_eq_true in H.
      destruct (slide_layouts t !! 1) as [layout|] eqn:Hl.
      * exists p, t. eexists. split; [reflexivity|]. split; [exact Ht|].
        split; [exact Hp | rewrite Hb, Hl; reflexivity].
      * apply lookup_ge_None in Hl. lia.
  - intros (p & t & d & -> & -> & -> & Hd). cbn [andb].
    destruct (find_best_content_slide t) as [ex|]; [reflexivity|].
    apply bool_decide_eq_true.
    destruct (slide_layouts t !! 1) as [layout|] eqn:Hl; [|discriminate].
    apply lookup_lt_Some in Hl. lia.
Qed.

(** X12. The outcome of a run, case by case. It returns the output path
    exactly when the path can be written and either the template path can
    build its deck or the library's built-in template has a layout.
    Otherwise it raises what the plain builder raises: [IndexError] when
    the built-in template has no layout, even if the output path cannot be
    written either, and [OSError] when only the path cannot be written. *)
Theorem run_outcome env items out tpl fs :
  fst (create_ppt_from_template env items out tpl fs)
  = if writable env out && (template_usable tpl fs
                            || bool_decide (default_layouts env <> []))
    then Ok out
    else if bool_decide (default_layouts env = []) then Raise IndexError
         else Raise OSError.
Proof.
  assert (fst (create_basic_presentation env items out fs)
          = if bool_decide (default_layouts env = []) then Raise IndexError
            else if writable env out then Ok out else Raise OSError) as Hbasic.
  { rewrite create_basic_presentation_eq. unfold save_outcome, basic_deck.
    unfold default_layout, getitem.
    destruct (default_layouts env) as [|l0 [|l1 ls]]; cbn;
      try reflexivity; by destruct (writable env out). }
  destruct (template_usable tpl fs) eqn:Hu.
  - apply (template_usable_spec env items) in Hu as (p & t & d & -> & Ht & Hp & Hd).
    rewrite create_ppt_from_template_eq, Ht.
    rewrite bool_decide_eq_true_2 by (rewrite Hp; eauto). cbn [andb orb].
    unfold try_except. rewrite template_body_eq, Hp. unfold save_outcome. rewrite Hd.
    destruct (writable env out) eqn:Hw; [reflexivity|]. cbn [andb].
    rewrite Hbasic. by destruct (bool_decide (default_layouts env = [])).
  - assert (create_ppt_from_template env items out tpl fs
            = create_basic_presentation env items out fs) as ->.
    { rewrite create_ppt_from_template_eq.
      destruct tpl as [p|]; [|reflexivity].
      destruct (truthy p) eqn:Ht; [|reflexivity]. cbn [andb].
      destruct (bool_decide (is_Some (fs !! p))); [|reflexivity].
      unfold try_except. rewrite template_body_eq.
      destruct (fs !! p) as [[|t]|] eqn:Hp; try reflexivity.
      destruct (template_deck env items t) as [d|e] eqn:Hd; [|reflexivity].
      assert (template_usable (Some p) fs = true) as Habs; [|congruence].
      apply (template_usable_spec env items). exists p, t, d. auto. }
    rewrite Hbasic. cbn [orb].
    destruct (default_layouts env) as [|l0 ls]; cbn.
    + by rewrite andb_false_r.
    + rewrite andb_true_r. by destruct (writable env out).
Qed.

(** With no built-in layout a run succeeds on a usable template and
    otherwise raises [IndexError], whether or not the path can be
    written. *)
Example run_outcome_without_builtin_layouts :
  let env := mkEnv [] (fun _ => true) (fun p => negb (String.eqb p "ro.pptx")) in
  fst (create_ppt_from_template env sample_items "out.pptx" (Some "brand.pptx") sample_fs)
  = Ok "out.pptx" /\
  fst (create_ppt_from_template env sample_items "out.pptx" (Some "bad.pptx") sample_fs)
  = Raise IndexError /\
  fst (create_ppt_from_template env sample_items "ro.pptx" (Some "brand.pptx") sample_fs)
  = Raise IndexError /\
  fst (create_ppt_from_template env [] "out.pptx" None sample_fs) = Raise IndexError.
Proof. vm_compute. repeat split; reflexivity. Qed.

(** X13. A run on a readable template whose layout can be chosen, to a path
    that can be written, saves a deck with the template's layouts and, for
    the item at each position, at the same position the slide made from the
    chosen layout by replication from the exemplar, if there is one, and
    population with that item. None of the template's own slides is left. *)
Theorem template_run_slides env items out p fs t layout :
  truthy p = true -> fs !! p = Some (Deck t) ->
  template_layout t = Ok layout -> writable env out = true ->
  exists d,
    create_ppt_from_template env items out (Some p) fs = (Ok out, <[out := Deck d]> fs) /\
    slide_layouts d = slide_layouts t /\
    length (slides d) = length items /\
    forall i c, items !! i = Some c ->
      exists sl,
        slides d !! i = Some sl /\ slide_layout sl = layout /\
        sl = snd (populate_slide_content c
                    match find_best_content_slide t with
                    | Some ex => snd (copy_template_visual_elements env ex
                                        (new_slide_from layout))
                    | None => new_slide_from layout
                    end).
Proof.
  intros Ht Hp Hlay Hw.
  exists (mkPresentation (map (built_slide env layout (find_best_content_slide t)) items)
                         (slide_layouts t)).
  split; [|split; [reflexivity|split]].
  - rewrite create_ppt_from_template_eq, Ht.
    rewrite bool_decide_eq_true_2 by (rewrite Hp; eauto).
    unfold try_except. rewrite template_body_eq, Hp.
    unfold template_deck. rewrite Hlay. unfold save_outcome. by rewrite Hw.
  - cbn. apply length_map.
  - intros i c Hi. cbn [slides].
    exists (built_slide env layout (find_best_content_slide t) c). split.
    + change (map (built_slide env layout (find_best_content_slide t)) items)
        with (built_slide env layout (find_best_content_slide t) <$> items).
      by rewrite list_lookup_fmap, Hi.
    + split.
      { unfold built_slide, populated, set_shapes. cbn [slide_layout].
        by destruct (find_best_content_slide t). }
      unfold built_slide.
      destruct (find_best_content_slide t) as [ex|].
      * rewrite copy_template_visual_elements_eq. cbn [snd].
        rewrite populate_slide_content_eq; [reflexivity|].
        apply content_frame_ok_built, Forall_concat, Forall_map, Forall_forall.
        intros src _. apply copied_shapes_not_placeholder.
      * by rewrite populate_slide_content_eq by apply content_frame_ok_fresh.
Qed.

Lemma template_run_slides_witness :
  exists d,
    create_ppt_from_template sample_env sample_items "out.pptx" (Some "brand.pptx") sample_fs
    = (Ok "out.pptx", <["out.pptx" := Deck d]> sample_fs) /\
    slide_layouts d = slide_layouts branded_deck /\ length (slides d) = 2.
Proof.
  destruct (template_run_slides sample_env sample_items "out.pptx" "brand.pptx" sample_fs
              branded_deck title_body_layout) as (d & Hrun & Hl & Hn & _).
  - reflexivity.
  - vm_compute. reflexivity.
  - reflexivity.
  - reflexivity.
  - exists d. split; [exact Hrun|]. split; [exact Hl | exact Hn].
Defined.

(** ** The code's score and the specification's score *)

Lemma count_shapes_one P shs :
  count_shapes P shs <= 1 -> count_shapes P shs = if existsb P shs then 1 else 0.
Proof.
  intros Hle. destruct (existsb P shs) eqn:E.
  - destruct (count_shapes P shs) as [|n] eqn:Hc; [|lia].
    apply count_shapes_zero in Hc. congruence.
  - by apply count_shapes_zero.
Qed.

Lemma slide_score_spec_score slide :
  count_shapes is_title_ph (shapes slide) <= 1 ->
  count_shapes is_content_ph (shapes slide) <= 1 ->
  slide_score slide = spec_score slide.
Proof.
  intros Ht Hc. rewrite slide_score_eq. unfold spec_score.
  rewrite (count_shapes_one _ _ Ht), (count_shapes_one _ _ Hc).
  destruct (existsb is_title_ph (shapes slide));
    destruct (existsb is_content_ph (shapes slide)); reflexivity.
Qed.

Lemma fold_left_ext_Forall {A B} (f g : A -> B -> A) (P : B -> Prop) (l : list B) a :
  Forall P l -> (forall st x, P x -> f st x = g st x) ->
  fold_left f l a = fold_left g l a.
Proof.
  intros Hl Hfg. revert a. induction Hl as [|x l Hx Hl IH]; intros a; [reflexivity|].
  cbn. rewrite (Hfg a x Hx). apply IH.
Qed.

(** X14. On a deck in which no slide has more than one title placeholder
    or more than one body or object placeholder, the score the code
    computes is the score of the specification for every slide, and
    [find_best_content_slide] returns the slide the specification's rule
    selects. *)
Theorem find_best_agrees_with_spec prs :
  Forall (fun slide => count_shapes is_title_ph (shapes slide) <= 1 /\
                       count_shapes is_content_ph (shapes slide) <= 1) (slides prs) ->
  (forall slide, slide ∈ slides prs -> slide_score slide = spec_score slide) /\
  find_best_content_slide prs = spec_find_best prs.
Proof.
  intros Hall. split.
  - intros slide Hin. rewrite Forall_forall in Hall.
    destruct (Hall slide Hin). by apply slide_score_spec_score.
  - unfold find_best_content_slide, spec_find_best. f_equal.
    apply (fold_left_ext_Forall _ _ _ _ _ Hall).
    intros [best bs] slide [Ht Hc]. unfold best_step. cbn [snd].
    rewrite (slide_score_spec_score _ Ht Hc).
    by destruct (decide (bs < spec_score slide)).
Qed.

Lemma find_best_agrees_with_spec_witness :
  find_best_content_slide branded_deck = spec_find_best branded_deck.
Proof.
  apply (find_best_agrees_with_spec branded_deck).
  repeat constructor.
Defined.

(** ** The two builders on a fresh slide *)

Lemma alter_fixed {A} (f : A -> A) (l : list A) i :
  (forall x, l !! i = Some x -> f x = x) -> alter f i l = l.
Proof.
  intros H. apply list_eq. intros k. rewrite list_lookup_alter.
  destruct (decide (i = k)) as [->|_]; [|reflexivity].
  destruct (l !! k) as [x|] eqn:Hk; [|reflexivity]. cbn. by rewrite (H x).
Qed.

(** X15. On a slide fresh from a layout on which the scan of
    [populate_slide_content] ends on the very shapes the plain builder
    looks up (the placeholder of index 0 as title, the first body
    placeholder as content), the plain builder's filling and
    [populate_slide_content] produce the same slide for every item, also
    for a missing or empty title and for missing or empty points. *)
Theorem builders_agree_on_fresh_slide layout content :
  scan_placeholders 0 (shapes (new_slide_from layout)) (None, None)
  = (shapes_title (new_slide_from layout),
     fst <$> list_find (fun s => is_body_ph s = true) (shapes (new_slide_from layout))) ->
  basic_fill content (new_slide_from layout)
  = populate_slide_content content (new_slide_from layout).
Proof.
  rewrite basic_fill_eq, scan_selects_last.
  rewrite populate_slide_content_eq by apply content_frame_ok_fresh.
  unfold basic_built, populated.
  set (fresh := new_slide_from layout). intros Hscan.
  assert (last_index is_title_ph 0 (shapes fresh) None = shapes_title fresh) as Hti
    by congruence.
  assert (last_index is_content_ph 0 (shapes fresh) None
          = fst <$> list_find (fun s => is_body_ph s = true) (shapes fresh)) as Hci
    by congruence.
  clear Hscan. f_equal. rewrite Hti, Hci.
  set (shs1 := match shapes_title fresh with
               | Some t => alter (set_shape_text (get_title content)) t (shapes fresh)
               | None => shapes fresh
               end).
  assert (match shapes_title fresh with
          | Some i => if truthy (get_title content)
                      then alter (set_shape_text (get_title content)) i (shapes fresh)
                      else shapes fresh
          | None => shapes fresh
          end = shs1) as ->.
  { unfold shs1. destruct (shapes_title fresh) as [t|]; [|reflexivity].
    destruct (get_title content) as [|c0 rest] eqn:Htitle; [|reflexivity].
    cbn [truthy]. symmetry. apply alter_fixed. intros x Hx.
    destruct (fresh_lookup layout t x Hx) as [lp ->]. reflexivity. }
  assert (fst <$> list_find (fun s => is_body_ph s = true) shs1
          = fst <$> list_find (fun s => is_body_ph s = true) (shapes fresh)) as Hfind.
  { unfold shs1. destruct (shapes_title fresh) as [t|]; [|reflexivity].
    apply list_find_alter_fst. intros x. unfold set_shape_text.
    by rewrite is_body_set_text_frame. }
  destruct (list_find (fun s => is_body_ph s = true) (shapes fresh)) as [[k x]|] eqn:Hf0;
    destruct (list_find (fun s => is_body_ph s = true) shs1) as [[k1 y]|] eqn:Hf1;
    try discriminate; cbn in Hfind |- *; [|reflexivity].
  injection Hfind as ->.
  destruct (get_points content) as [|p0 rest] eqn:Hpts; [|reflexivity].
  f_equal. apply alter_fixed. intros z Hz.
  apply list_find_Some in Hf0 as (Hx & Px & _).
  assert (shs1 !! k = shapes fresh !! k) as Hsame.
  { unfold shs1. destruct (shapes_title fresh) as [t|] eqn:Ht; [|reflexivity].
    apply list_lookup_alter_ne. intros ->.
    destruct (last_index_Some _ _ _ Hti) as (w & Hw & Pw & _).
    rewrite Hx in Hw. injection Hw as <-.
    exact (title_not_content _ Pw (body_is_content _ Px)). }
  rewrite Hsame in Hz.
  destruct (fresh_lookup layout k z Hz) as [lp ->]. reflexivity.
Qed.

Lemma builders_agree_on_fresh_slide_witness :
  basic_fill end_item (new_slide_from title_body_layout)
  = populate_slide_content end_item (new_slide_from title_body_layout).
Proof.
  apply (builders_agree_on_fresh_slide title_body_layout end_item).
  vm_compute. reflexivity.
Defined.
